(** * mama_cas.views: the CAS endpoints of django-mama-cas

    A shallow embedding of [mama_cas/views.py]: the credential requestor
    and acceptor ([LoginView]), the CAS 1.0 validator ([ValidateView]) and
    the OAuth callback ([OAuthView]) with its four providers.

    Python values are modelled by [pyval], exceptions by [exn]; a view is a
    computation in the monad [M], which threads the shared stores (users,
    tickets, session, messages) and keeps every store mutation made before
    an exception is raised, as Python does. *)

From Stdlib Require Import String Ascii List Bool Arith ZArith Lia Permutation.
Import ListNotations.
Open Scope string_scope.

#[local] Set Warnings "-register-all".

(** ** Python strings *)

Module PyStr.

Definition nl : string := String "010"%char EmptyString.

(** [s.startswith(p)] *)
Definition startswith (s p : string) : bool := String.prefix p s.

Fixpoint rev (s : string) : string :=
  match s with
  | EmptyString => EmptyString
  | String c s' => rev s' ++ String c EmptyString
  end.

(** [s.endswith(p)] *)
Definition endswith (s p : string) : bool := String.prefix (rev p) (rev s).

(** [s[:-n]] *)
Definition drop_last (n : nat) (s : string) : string :=
  String.substring 0 (String.length s - n) s.

(** [s[a:-b]] for non-negative literals [a] and [b] *)
Definition slice (a b : nat) (s : string) : string :=
  String.substring a (String.length s - b - a) s.

(** [s.split(sep)] for a one-character separator *)
Fixpoint split (sep : ascii) (s : string) : list string :=
  match s with
  | EmptyString => [EmptyString]
  | String c s' =>
      if Ascii.eqb c sep then EmptyString :: split sep s'
      else match split sep s' with
           | [] => [String c EmptyString]
           | x :: xs => String c x :: xs
           end
  end.

(** [p in s] on two strings: substring test *)
Fixpoint contains (p s : string) : bool :=
  String.prefix p s ||
  match s with
  | EmptyString => false
  | String _ s' => contains p s'
  end.

(** [s.count(c)] for a one-character [c] *)
Fixpoint count (c : ascii) (s : string) : nat :=
  match s with
  | EmptyString => 0
  | String x s' => (if Ascii.eqb x c then 1 else 0) + count c s'
  end.

(** [if s:] *)
Definition nonempty (s : string) : bool :=
  match s with EmptyString => false | _ => true end.

End PyStr.

(** ** Python values and exceptions *)

(** What [json.loads] can return, which is also everything the OAuth helpers
    hand around: [None], booleans, integers, strings, lists and dicts. *)
Inductive pyval : Type :=
| VNone
| VBool (b : bool)
| VInt (n : Z)
| VStr (s : string)
| VList (l : list pyval)
| VDict (d : list (string * pyval)).

Inductive exn : Type :=
| TypeError | KeyError | AttributeError | ValueError
  (** the rejection of a ticket issuance for a service that is not allowed *)
| Rejected.

Inductive res (A : Type) : Type :=
| Ok (a : A)
| Raise (e : exn).
Arguments Ok {A} a.
Arguments Raise {A} e.

Module Py.

(** [if v:] *)
Definition truthy (v : pyval) : bool :=
  match v with
  | VNone => false
  | VBool b => b
  | VInt n => negb (Z.eqb n 0)
  | VStr s => PyStr.nonempty s
  | VList l => match l with [] => false | _ => true end
  | VDict d => match d with [] => false | _ => true end
  end.

Fixpoint assoc {A} (k : string) (d : list (string * A)) : option A :=
  match d with
  | [] => None
  | (k', v) :: d' => if String.eqb k k' then Some v else assoc k d'
  end.

(** [k in v] for a string [k]: key test on a dict, substring test on a
    string, element test on a list, [TypeError] on anything else. *)
Definition contains (k : string) (v : pyval) : res bool :=
  match v with
  | VDict d => Ok (match assoc k d with Some _ => true | None => false end)
  | VStr s => Ok (PyStr.contains k s)
  | VList l =>
      Ok (existsb (fun x => match x with VStr s => String.eqb s k | _ => false end) l)
  | _ => Raise TypeError
  end.

(** [v[k]] for a string [k] *)
Definition getitem (v : pyval) (k : string) : res pyval :=
  match v with
  | VDict d => match assoc k d with Some x => Ok x | None => Raise KeyError end
  | _ => Raise TypeError
  end.

(** The operand of a string concatenation ['...' + v] or [v + '...'] *)
Definition as_str (v : pyval) : res string :=
  match v with
  | VStr s => Ok s
  | _ => Raise TypeError
  end.

(** The receiver of a string method ([v.split], [v.startswith]) *)
Definition str_method (v : pyval) : res string :=
  match v with
  | VStr s => Ok s
  | _ => Raise AttributeError
  end.

End Py.

(** ** Stores *)

Record User : Type := mkUser {
  username : string;
  password : string;
  email : pyval
}.

Record ServiceTicket : Type := mkST {
  st_ticket : string;
  st_service : string;
  st_user : User;
  st_primary : bool;
  st_consumed : bool
}.

(** [request.session]: the logged-in user and the ['warn'] key. *)
Record Session : Type := mkSession {
  auth_user : option User;
  warn : bool
}.

Record World : Type := mkWorld {
  users : list User;
  tickets : list ServiceTicket;
  session : Session;
  messages : list string
}.

(** ** The view monad *)

Definition M (A : Type) : Type := World -> res A * World.

Definition ret {A} (a : A) : M A := fun w => (Ok a, w).

Definition bind {A B} (m : M A) (k : A -> M B) : M B :=
  fun w => match m w with
           | (Ok a, w') => k a w'
           | (Raise e, w') => (Raise e, w')
           end.

Definition lift {A} (r : res A) : M A := fun w => (r, w).

Definition raise {A} (e : exn) : M A := lift (Raise e).

Declare Scope py_scope.
Delimit Scope py_scope with py.
Notation "x <- m ;; k" := (bind m (fun x => k))
  (at level 61, m at next level, right associativity) : py_scope.
Notation "m ;;; k" := (bind m (fun _ => k))
  (at level 61, right associativity) : py_scope.
Open Scope py_scope.

(** ** Requests and responses *)

Record Request : Type := {
  scheme : string;
  http_host : option string;   (* request.META.get('HTTP_HOST') *)
  path : string;
  GET : list (string * string) (* the query string, in order *)
}.

(** A request that carries a Host header. *)
Definition mkRequest (scheme host path : string) (query : list (string * string)) : Request :=
  Build_Request scheme (Some host) path query.

(** [request.META['HTTP_HOST']]: KeyError on a request without a Host header. *)
Definition META_HTTP_HOST (request : Request) : res string :=
  match http_host request with
  | Some host => Ok host
  | None => Raise KeyError
  end.

(** [request.GET.get(k)]: the last value given for [k], or [None]. *)
Definition QueryDict_get (q : list (string * string)) (k : string) : option string :=
  Py.assoc k (List.rev q).

(** The attributes a [LoginView] instance carries. *)
Record LoginView : Type := mkLoginView {
  lv_scheme : string;
  lv_http_host : string;
  lv_path : string;
  lv_service : string
}.

(** The class attributes: the state of a view on which [get] never ran. *)
Definition LoginView_init : LoginView := mkLoginView "http" "" "" "".

(** The redirect URI the login page's authorization link for [provider]
    names: what [get_context_data] writes after [redirect_uri=], up to the
    next parameter of the link. *)
Definition authorization_redirect_uri (self : LoginView) (provider : string) : string :=
  lv_scheme self ++ "://" ++ lv_http_host self ++ lv_path self
    ++ "oauth?v=" ++ provider ++ "," ++ lv_service self.

(** The redirect URI a token-exchange request carries, if it carries one. *)
Definition exchange_redirect_uri (data : list (string * pyval)) : option pyval :=
  Py.assoc "redirect_uri" data.

(** The provider tags [OAuthView.get] dispatches on. *)
Definition providers : list string := ["github"; "qq"; "weibo"; "wechat"].

Inductive Response : Type :=
| HttpResponse (content content_type : string)
  (** [mama_cas.utils.redirect(to, params=params)] *)
| redirect (to : string) (params : list (string * string))
  (** [super(LoginView, self).get(...)]: the credential form, rendered with
      the context data of [self] *)
| FormView_get (self : LoginView).

(** ** Store accessors *)

Definition set_users (us : list User) (w : World) : World :=
  mkWorld us (tickets w) (session w) (messages w).

Definition set_tickets (ts : list ServiceTicket) (w : World) : World :=
  mkWorld (users w) ts (session w) (messages w).

Definition set_session (s : Session) (w : World) : World :=
  mkWorld (users w) (tickets w) s (messages w).

Definition set_messages (ms : list string) (w : World) : World :=
  mkWorld (users w) (tickets w) (session w) ms.

(** [request.user], [None] standing for the anonymous user, so that
    [request.user.is_authenticated()] is [Some _]. *)
Definition request_user : M (option User) :=
  fun w => (Ok (auth_user (session w)), w).

(** [django.contrib.auth.login(request, user)]: the session now belongs to
    [user]; session data left by a different user is flushed. *)
Definition login (user : User) : M unit :=
  fun w =>
    let s := session w in
    let same := match auth_user s with
                | Some u => String.eqb (username u) (username user)
                | None => true
                end in
    (Ok tt, set_session (mkSession (Some user) (if same then warn s else false)) w).

(** [messages.success(request, msg)] *)
Definition messages_success (msg : string) : M unit :=
  fun w => (Ok tt, set_messages (messages w ++ [msg]) w).

(** What [validate_service_ticket] returns: [(st, pgt, error)]. *)
Record ValidationError : Type := mkError {
  ve_code : string;
  ve_msg : string
}.

Definition Validation : Type :=
  (option ServiceTicket * option string * option ValidationError)%type.

Record ProxyTicket : Type := mkPT {
  pt_ticket : string;
  pt_service : string;
  pt_user : User
}.

(** The ticket a CAS 2.0 validation hands to the response. *)
Inductive Ticket : Type :=
| ST (t : ServiceTicket)
| PT (t : ProxyTicket).

Definition ticket_user (t : Ticket) : User :=
  match t with
  | ST t => st_user t
  | PT t => pt_user t
  end.

Definition ticket_service (t : Ticket) : string :=
  match t with
  | ST t => st_service t
  | PT t => pt_service t
  end.

(** The context [get_context_data] passes to a [ValidationResponse];
    [ctx_proxies] is [None] when the dict has no ['proxies'] key. *)
Record Context : Type := mkContext {
  ctx_ticket : option Ticket;
  ctx_pgt : option string;
  ctx_proxies : option (option (list string));
  ctx_error : option ValidationError;
  ctx_attributes : option (list (string * pyval))
}.

Record LoginForm : Type := mkForm {
  form_user : User;            (* form.user, set by a successful clean() *)
  form_warn : bool             (* form.cleaned_data.get('warn') *)
}.

Section Views.

(** [django.conf.settings], every configured value a string. *)
Variable settings : string -> option string.

(** [mama_cas.utils.to_bool], not among the sources. *)
Variable to_bool : option string -> bool.

(** The random token a new service ticket receives. *)
Variable new_ticket : list ServiceTicket -> string.

(** [ServiceRegistry.isAllowed], the external validation of service URLs. *)
Variable is_allowed : string -> bool.

(** [mama_cas.cas.validate_service_ticket(service, ticket, pgturl, renew)],
    not among the sources; it consumes the ticket, hence runs on the world. *)
Variable validate_service_ticket :
  option string -> option string -> option string -> bool -> World -> Validation * World.

(** [getattr(settings, name, default)] *)
Definition getattr_default (name default : string) : string :=
  match settings name with
  | Some v => v
  | None => default
  end.

(** [getattr(settings, name)] *)
Definition getattr (name : string) : res string :=
  match settings name with
  | Some v => Ok v
  | None => Raise AttributeError
  end.

(** Modelled from the spec: [ServiceTicket.objects.create_ticket] is defined
    in mama_cas/models.py, which is not among the sources.  A ticket omitting
    [primary] is one "created from an existing SSO session", which the data
    model gives [primary=false]; [LoginView.get] issues exactly those and
    passes no [primary]. *)
Definition primary_default : bool := false.

(** Modelled from the spec: [ServiceTicket.objects.create_ticket(service=,
    user=, primary=)] of mama_cas/models.py, per TicketAuthority.issue: it
    rejects a service that fails the ServiceRegistry validation, storing
    nothing; otherwise a new token, the ticket stored with the fields given
    by the caller, the created ticket returned. *)
Definition create_ticket (service : string) (user : User) (primary : option bool)
  : M ServiceTicket :=
  fun w =>
    if is_allowed service then
      let st := mkST (new_ticket (tickets w)) service user
                     (match primary with Some b => b | None => primary_default end)
                     false in
      (Ok st, set_tickets (st :: tickets w) w)
    else (Raise Rejected, w).

(** The flag a query parameter stands for. *)
Definition flag (request : Request) (name : string) : bool :=
  to_bool (QueryDict_get (GET request) name).

(** The ticket a transparent issuance stores: the next token, the service,
    the session's user, not primary, not consumed. *)
Definition transparent_ticket (service : string) (u : User) (w : World) : ServiceTicket :=
  mkST (new_ticket (tickets w)) service u primary_default false.

(** *** LoginView *)

(** [self.request.session.get('warn', False)] *)
Definition warn_user : M bool :=
  fun w => (Ok (warn (session w)), w).

(** [LoginView.get_context_data], less the entries of the parent class: the
    links and meta tags the login page offers for the four providers. *)
Definition LoginView_get_context_data (self : LoginView) : res (list (string * string)) :=
  match getattr "MAMA_CAS_OAUTH_WECHAT_APP_ID" with
  | Raise e => Raise e
  | Ok wechat_app_id =>
      Ok [ ("oauth_weibo_meta_content", getattr_default "MAMA_CAS_OAUTH_WEIBO_META" "");
           ("oauth_qq_meta_content", getattr_default "MAMA_CAS_OAUTH_QQ_META" "");
           ("oauth_github_url",
            "https://github.com/login/oauth/authorize?client_id="
              ++ getattr_default "MAMA_CAS_OAUTH_GITHUB_CLIENT_ID" ""
              ++ "&redirect_uri=" ++ lv_scheme self ++ "://" ++ lv_http_host self
              ++ lv_path self ++ "oauth?v=github," ++ lv_service self);
           ("oauth_qq_url",
            "https://graph.qq.com/oauth2.0/authorize?client_id="
              ++ getattr_default "MAMA_CAS_OAUTH_QQ_APP_ID" ""
              ++ "&redirect_uri=" ++ lv_scheme self ++ "://" ++ lv_http_host self
              ++ lv_path self ++ "oauth?v=qq," ++ lv_service self
              ++ "&response_type=code&state=" ++ getattr_default "SECRET_KEY" "");
           ("oauth_weibo_url",
            "https://api.weibo.com/oauth2/authorize?client_id="
              ++ getattr_default "MAMA_CAS_OAUTH_WEIBO_APP_KEY" ""
              ++ "&redirect_uri=" ++ lv_scheme self ++ "://" ++ lv_http_host self
              ++ lv_path self ++ "oauth?v=weibo," ++ lv_service self
              ++ "&response_type=code&scope=email");
           ("oauth_wechat_url",
            "https://open.weixin.qq.com/connect/qrconnect?appid="
              ++ wechat_app_id
              ++ "&redirect_uri=" ++ lv_scheme self ++ "://" ++ lv_http_host self
              ++ lv_path self ++ "oauth?v=wechat," ++ lv_service self
              ++ "&response_type=code&scope=snsapi_login#wechat_redirect") ]
  end.

(** [super(LoginView, self).get(request, ...)]: [FormView.get] renders the
    form with [self.get_context_data()], whose exception it lets through. *)
Definition FormView_render (self : LoginView) : M Response :=
  match LoginView_get_context_data self with
  | Ok _ => ret (FormView_get self)
  | Raise e => raise e
  end.

(** Lines 86-93 of [LoginView.get]: the attributes the view stores on itself,
    [host] being what line 87 has read from the request. *)
Definition LoginView_setup (request : Request) (host : string) : LoginView :=
  mkLoginView
    (scheme request)
    host
    (if PyStr.endswith (path request) "login"
     then PyStr.drop_last 5 (path request) else path request)
    (match QueryDict_get (GET request) "service" with
     | Some s => s
     | None => getattr_default "MAMA_CAS_DEFAULT_SERVICE" ""
     end).

(** The two [create_ticket] / [warn_user] / [redirect] blocks of
    [LoginView.get], which are the same text. *)
Definition issue_and_redirect (service : string) (user : User) : M Response :=
  st <- create_ticket service user None ;;
  w <- warn_user ;;
  if w then ret (redirect "cas_warn" [("service", service); ("ticket", st_ticket st)])
  else ret (redirect service [("ticket", st_ticket st)]).

Definition LoginView_get (request : Request) : M Response :=
  host <- lift (META_HTTP_HOST request) ;;
  let self := LoginView_setup request host in
  let renew := to_bool (QueryDict_get (GET request) "renew") in
  let gateway := to_bool (QueryDict_get (GET request) "gateway") in
  if renew then FormView_render self
  else if gateway && PyStr.nonempty (lv_service self) then
    user <- request_user ;;
    match user with
    | Some u => issue_and_redirect (lv_service self) u
    | None => ret (redirect (lv_service self) [])
    end
  else
    user <- request_user ;;
    match user with
    | Some u =>
        if PyStr.nonempty (lv_service self) then issue_and_redirect (lv_service self) u
        else
          messages_success ("You are logged in as " ++ username u) ;;;
          FormView_render self
    | None => FormView_render self
    end.

Definition LoginView_form_valid (request : Request) (form : LoginForm) : M Response :=
  login (form_user form) ;;;
  (if form_warn form
   then fun w => (Ok tt, set_session (mkSession (auth_user (session w)) true) w)
   else ret tt) ;;;
  match QueryDict_get (GET request) "service" with
  | Some service =>
      if PyStr.nonempty service then
        user <- request_user ;;
        match user with
        | Some u =>
            st <- create_ticket service u (Some true) ;;
            ret (redirect service [("ticket", st_ticket st)])
        | None => raise AttributeError
        end
      else ret (redirect "cas_login" [])
  | None => ret (redirect "cas_login" [])
  end.

(** *** ValidateView *)

(** How [ValidateView.get] calls the validator: no [pgtUrl]. *)
Definition validate_call (request : Request) (w : World) : Validation * World :=
  validate_service_ticket
    (QueryDict_get (GET request) "service") (QueryDict_get (GET request) "ticket")
    None (flag request "renew") w.

Definition ValidateView_get (request : Request) : M Response :=
  fun w =>
    let service := QueryDict_get (GET request) "service" in
    let ticket := QueryDict_get (GET request) "ticket" in
    let renew := to_bool (QueryDict_get (GET request) "renew") in
    match validate_service_ticket service ticket None renew w with
    | ((Some st, pgt, error), w') =>
        (Ok (HttpResponse ("yes" ++ PyStr.nl ++ username (st_user st) ++ PyStr.nl)
                          "text/plain"), w')
    | ((None, pgt, error), w') =>
        (Ok (HttpResponse ("no" ++ PyStr.nl ++ PyStr.nl) "text/plain"), w')
    end.

(** *** OAuthView *)

(** [urllib2.urlopen(url).read()] and the same for a POST of form data;
    [None] when anything raises on the way. *)
Variable urlopen : string -> option string.
Variable urlopen_post : string -> list (string * pyval) -> option string.

(** [json.loads]; [None] when it raises. *)
Variable json_loads : string -> option pyval.

(** [pinyin.get_initial(s, delimiter='')] *)
Variable get_initial : string -> string.

Definition __http_post (url : string) (data : list (string * pyval)) : pyval :=
  match urlopen_post url data with
  | None => VNone
  | Some result =>
      match json_loads result with
      | Some v => v
      | None => VStr result
      end
  end.

Definition __http_get (url : string) : pyval :=
  match urlopen url with
  | None => VNone
  | Some html =>
      match json_loads html with
      | Some data => data
      | None => VStr html
      end
  end.

(** [User.objects.get(username=...)] *)
Definition User_get (name : string) (us : list User) : option User :=
  find (fun u => String.eqb (username u) name) us.

(** [django.contrib.auth.authenticate(username=, password=)] *)
Definition authenticate (name pass : string) (us : list User) : option User :=
  match User_get name us with
  | Some u => if String.eqb (password u) pass then Some u else None
  | None => None
  end.

(** The first [try] creates the account when it is missing; in the second,
    [login] raises on the [None] of a failed [authenticate], so that [None]
    is returned and the session is left alone. *)
Definition __sync_user (name pass : string) (mail : pyval) : M (option User) :=
  fun w =>
    let w1 := match User_get name (users w) with
              | Some _ => w
              | None => set_users (users w ++ [mkUser name pass mail]) w
              end in
    match authenticate name pass (users w1) with
    | Some user => (login user ;;; ret (Some user)) w1
    | None => (Ok None, w1)
    end.

Definition opt_str (o : option string) : pyval :=
  match o with
  | Some s => VStr s
  | None => VNone
  end.

(** The last three lines of every provider: ticket and redirect for a synced
    user, otherwise the provider's failure text. *)
Definition ticket_or (failed : Response) (service : string) (user : option User)
  : M Response :=
  match user with
  | Some u =>
      st <- create_ticket service u None ;;
      ret (redirect service [("ticket", st_ticket st)])
  | None => ret failed
  end.

Definition github_token_data (code : option string) : list (string * pyval) :=
  [ ("grant_type", VStr "authorization_code");
    ("client_id", VStr (getattr_default "MAMA_CAS_OAUTH_GITHUB_CLIENT_ID" ""));
    ("client_secret", VStr (getattr_default "MAMA_CAS_OAUTH_GITHUB_CLIENT_SECRET" ""));
    ("code", opt_str code) ].

Definition do_github (code : option string) (service : string) : M Response :=
  let failed := HttpResponse "GitHub OAuth failed" "text/plain" in
  let result := __http_post "https://github.com/login/oauth/access_token"
                            (github_token_data code) in
  if Py.truthy result then
    has <- lift (Py.contains "access_token" result) ;;
    if has : bool then
      access_token <- lift (Py.getitem result "access_token") ;;
      access_token <- lift (Py.as_str access_token) ;;
      let data := __http_get ("https://api.github.com/user?access_token=" ++ access_token) in
      name <- lift (Py.getitem data "login") ;;
      name <- lift (Py.as_str name) ;;
      let name := name ++ "_github" in
      mail <- lift (Py.getitem data "email") ;;
      let pass := getattr_default "SECRET_KEY" "" in
      user <- __sync_user name pass mail ;;
      ticket_or failed service user
    else ret failed
  else ret failed.

Definition qq_token_data (code : option string) (host service : string)
  : list (string * pyval) :=
  [ ("grant_type", VStr "authorization_code");
    ("client_id", VStr (getattr_default "MAMA_CAS_OAUTH_QQ_APP_ID" ""));
    ("client_secret", VStr (getattr_default "MAMA_CAS_OAUTH_QQ_APP_KEY" ""));
    ("code", opt_str code);
    ("redirect_uri", VStr ("http://" ++ host ++ "/oauth?v=qq," ++ service)) ].

(** The [for token in result.split('&')] loop of [do_qq]. *)
Definition qq_access_token (result : string) : string :=
  match find (fun token => PyStr.startswith token "access_token=")
             (PyStr.split "&" result) with
  | Some token => nth 1 (PyStr.split "=" token) ""
  | None => ""
  end.

Definition do_qq (code : option string) (host service : string) : M Response :=
  let failed := HttpResponse "QQ登录失败!" "text/plain" in
  let result := __http_post "https://graph.qq.com/oauth2.0/token"
                            (qq_token_data code host service) in
  if Py.truthy result then
    result <- lift (Py.str_method result) ;;
    let access_token := qq_access_token result in
    let data := __http_get ("https://graph.qq.com/oauth2.0/me?access_token=" ++ access_token) in
    data <- lift (Py.str_method data) ;;
    if PyStr.startswith data "callback" then
      me <- lift (match json_loads (PyStr.slice 10 3 data) with
                  | Some v => Ok v
                  | None => Raise ValueError
                  end) ;;
      openid <- lift (Py.getitem me "openid") ;;
      openid <- lift (Py.as_str openid) ;;
      let user_info :=
        __http_get ("https://graph.qq.com/user/get_user_info?access_token=" ++ access_token
                    ++ "&oauth_consumer_key=" ++ getattr_default "MAMA_CAS_OAUTH_QQ_APP_ID" ""
                    ++ "&openid=" ++ openid) in
      nickname <- lift (Py.getitem user_info "nickname") ;;
      nickname <- lift (Py.as_str nickname) ;;
      let name := get_initial nickname in
      if PyStr.nonempty name then
        let name := name ++ "_qq" in
        let mail := name ++ getattr_default "MAMA_CAS_OAUTH_EMAIL" "" in
        let pass := getattr_default "SECRET_KEY" "" in
        user <- __sync_user name pass (VStr mail) ;;
        ticket_or failed service user
      else ret failed
    else ret failed
  else ret failed.

Definition weibo_token_data (code : option string) (host service : string)
  : list (string * pyval) :=
  [ ("grant_type", VStr "authorization_code");
    ("client_id", VStr (getattr_default "MAMA_CAS_OAUTH_WEIBO_APP_KEY" ""));
    ("client_secret", VStr (getattr_default "MAMA_CAS_OAUTH_WEIBO_APP_SECRET" ""));
    ("code", opt_str code);
    ("redirect_uri", VStr ("http://" ++ host ++ "/oauth?v=weibo," ++ service)) ].

Definition do_weibo (code : option string) (host service : string) : M Response :=
  let failed := HttpResponse "Weibo OAuth failed" "text/plain" in
  let result := __http_post "https://api.weibo.com/oauth2/access_token"
                            (weibo_token_data code host service) in
  if Py.truthy result then
    has <- lift (Py.contains "access_token" result) ;;
    if has : bool then
      access_token <- lift (Py.getitem result "access_token") ;;
      uid <- lift (Py.getitem result "uid") ;;
      access_token <- lift (Py.as_str access_token) ;;
      uid <- lift (Py.as_str uid) ;;
      let data := __http_get ("https://api.weibo.com/2/users/show.json?access_token="
                              ++ access_token ++ "&uid=" ++ uid) in
      if Py.truthy data then
        name <- lift (Py.getitem data "profile_url") ;;
        name <- lift (Py.as_str name) ;;
        let name := name ++ "_weibo" in
        let mail := name ++ getattr_default "MAMA_CAS_OAUTH_EMAIL" "" in
        let pass := getattr_default "SECRET_KEY" "" in
        user <- __sync_user name pass (VStr mail) ;;
        ticket_or failed service user
      else ret failed
    else ret failed
  else ret failed.

Definition do_wechat (code : option string) (host service : string) : M Response :=
  let failed := HttpResponse "WeChat OAuth failed" "text/plain" in
  secret <- lift (getattr "MAMA_CAS_OAUTH_WECHAT_APP_SECRET") ;;
  code <- lift (Py.as_str (opt_str code)) ;;
  let data := __http_get ("https://api.weixin.qq.com/sns/oauth2/access_token?appid="
                          ++ getattr_default "MAMA_CAS_OAUTH_WECHAT_APP_ID" ""
                          ++ "&secret=" ++ secret ++ "&code=" ++ code
                          ++ "&grant_type=authorization_code") in
  if Py.truthy data then
    access_token <- lift (Py.getitem data "access_token") ;;
    access_token <- lift (Py.as_str access_token) ;;
    openid <- lift (Py.getitem data "openid") ;;
    openid <- lift (Py.as_str openid) ;;
    let data := __http_get ("https://api.weixin.qq.com/sns/userinfo?access_token="
                            ++ access_token ++ "&openid=" ++ openid) in
    if Py.truthy data then
      nickname <- lift (Py.getitem data "nickname") ;;
      nickname <- lift (Py.as_str nickname) ;;
      let name := get_initial nickname ++ "_wechat" in
      let mail := name ++ getattr_default "MAMA_CAS_OAUTH_EMAIL" "" in
      let pass := getattr_default "SECRET_KEY" "" in
      user <- __sync_user name pass (VStr mail) ;;
      ticket_or failed service user
    else ret failed
  else ret failed.

Definition OAuthView_get (request : Request) : M Response :=
  let code := QueryDict_get (GET request) "code" in
  let host := lift (META_HTTP_HOST request) in
  let fallback :=
    ret (HttpResponse "请从web应用（例如https://bugs.isoft-linux.org/）登录入口进行CAS"
                      "text/plain") in
  match QueryDict_get (GET request) "v" with
  | Some v =>
      if PyStr.nonempty v then
        match PyStr.split "," v with
        | [provider; service] =>
            if String.eqb provider "github" then do_github code service
            else if String.eqb provider "qq" then
              host <- host ;; do_qq code host service
            else if String.eqb provider "weibo" then
              host <- host ;; do_weibo code host service
            else if String.eqb provider "wechat" then
              host <- host ;; do_wechat code host service
            else fallback
        | _ => fallback
        end
      else fallback
  | None => fallback
  end.

(** What a run of an OAuth handler may do to the ticket store: nothing, and
    then the outcome is no redirect; or add one ticket, issued the way a
    transparent issuance is, and redirect to its service with its token. *)
Definition oauth_outcome (w : World) (out : res Response * World) : Prop :=
  (tickets (snd out) = tickets w /\
   forall to params, fst out <> Ok (redirect to params)) \/
  (exists service u,
     let st := transparent_ticket service u w in
     tickets (snd out) = st :: tickets w /\
     fst out = Ok (redirect service [("ticket", st_ticket st)])).

(** *** ServiceValidateView and ProxyValidateView *)

(** [mama_cas.cas.validate_proxy_ticket(service, ticket, pgturl)],
    [mama_cas.cas.get_attributes(user, service)] and
    [ProxyTicket.TICKET_PREFIX], none of them among the sources. *)
Variable validate_proxy_ticket :
  option string -> option string -> option string -> World ->
  (option ProxyTicket * option string * option (list string) * option ValidationError) * World.
Variable get_attributes : User -> string -> list (string * pyval).
Variable TICKET_PREFIX : string.

(** [get_attributes(t.user, t.service) if t else None] *)
Definition attributes_of (t : option Ticket) : option (list (string * pyval)) :=
  match t with
  | Some t => Some (get_attributes (ticket_user t) (ticket_service t))
  | None => None
  end.

Definition ServiceValidateView_get_context_data (request : Request) : World -> Context * World :=
  fun w =>
    let service := QueryDict_get (GET request) "service" in
    let ticket := QueryDict_get (GET request) "ticket" in
    let pgturl := QueryDict_get (GET request) "pgtUrl" in
    let renew := to_bool (QueryDict_get (GET request) "renew") in
    let '((st, pgt, error), w') := validate_service_ticket service ticket pgturl renew w in
    let t := option_map ST st in
    (mkContext t pgt None error (attributes_of t), w').

Definition ProxyValidateView_get_context_data (request : Request) : World -> Context * World :=
  fun w =>
    let service := QueryDict_get (GET request) "service" in
    let ticket := QueryDict_get (GET request) "ticket" in
    let pgturl := QueryDict_get (GET request) "pgtUrl" in
    let renew := to_bool (QueryDict_get (GET request) "renew") in
    let as_proxy :=
      match ticket with
      | Some t => negb (PyStr.nonempty t) || PyStr.startswith t TICKET_PREFIX
      | None => true
      end in
    if as_proxy then
      let '((pt, pgt, proxies, error), w') := validate_proxy_ticket service ticket pgturl w in
      let t := option_map PT pt in
      (mkContext t pgt (Some proxies) error (attributes_of t), w')
    else
      let '((st, pgt, error), w') := validate_service_ticket service ticket pgturl renew w in
      let t := option_map ST st in
      (mkContext t pgt (Some None) error (attributes_of t), w').

(** *** What a callback leaves behind *)

(** The world after [__sync_user] has signed [u] in: the account of [u]
    added unless one of that name was stored, the session handed to [u],
    with the warn flag it had when it was the session of [u] already. *)
Definition synced (u : User) (w : World) : World :=
  mkWorld
    (match User_get (username u) (users w) with
     | Some _ => users w
     | None => users w ++ [u]
     end)
    (tickets w)
    (mkSession (Some u)
       (match auth_user (session w) with
        | Some v => if username v =? username u then warn (session w) else false
        | None => warn (session w)
        end))
    (messages w).

(** The world after a federated sign-in of [u] for [service]: [synced], and
    one ticket more. *)
Definition federated (service : string) (u : User) (w : World) : World :=
  set_tickets (transparent_ticket service u w :: tickets w) (synced u w).

(** A run of a provider handler for [service], whose accounts carry [tag].
    Either nothing at all has changed and the outcome is no redirect; or the
    world is [federated] for an account tagged [tag] whose password is the
    SECRET_KEY setting, and the redirect carries the new token; or such an
    account was signed in and the issuance for [service] then rejected. *)
Definition callback_post (service tag : string) (w : World) (out : res Response * World)
  : Prop :=
  (snd out = w /\ forall to params, fst out <> Ok (redirect to params)) \/
  (exists u,
     (out = (Ok (redirect service [("ticket", new_ticket (tickets w))]),
             federated service u w) /\ is_allowed service = true \/
      out = (Raise Rejected, synced u w) /\ is_allowed service = false) /\
     PyStr.endswith (username u) tag = true /\
     password u = getattr_default "SECRET_KEY" "" /\
     In u (users (synced u w))).

(** A federated sign-in, store by store: the redirect with the new token,
    one ticket more, for the service and for [u], neither primary nor
    consumed; [u] owns the session and is a stored account; the accounts are
    those stored before, with [u] added at the end if the name was free; the
    messages are as they were. *)
Definition signed_in_with_ticket (service : string) (u : User) (w : World)
    (out : res Response * World) : Prop :=
  fst out = Ok (redirect service [("ticket", new_ticket (tickets w))]) /\
  tickets (snd out) = mkST (new_ticket (tickets w)) service u false false :: tickets w /\
  auth_user (session (snd out)) = Some u /\
  In u (users (snd out)) /\
  (users (snd out) = users w \/ users (snd out) = (users w ++ [u])%list) /\
  messages (snd out) = messages w.

End Views.

(** ** A concrete deployment

    Instances of the parameters of [Views], for running the views on
    concrete requests. *)

Module Deployment.

Definition is_space (c : ascii) : bool :=
  match nat_of_ascii c with
  | 9 | 10 | 11 | 12 | 13 | 32 => true
  | _ => false
  end.

Fixpoint blank (s : string) : bool :=
  match s with
  | EmptyString => true
  | String c s' => is_space c && blank s'
  end.

(** A [to_bool] that holds of every value with a non-blank character. *)
Definition to_bool (v : option string) : bool :=
  match v with
  | Some s => negb (blank s)
  | None => false
  end.

Definition settings (name : string) : option string :=
  Py.assoc name
    [ ("SECRET_KEY", "s3cr3t");
      ("MAMA_CAS_DEFAULT_SERVICE", "https://portal.example/");
      ("MAMA_CAS_OAUTH_GITHUB_CLIENT_ID", "gh-id");
      ("MAMA_CAS_OAUTH_GITHUB_CLIENT_SECRET", "gh-secret");
      ("MAMA_CAS_OAUTH_QQ_APP_ID", "qq-id");
      ("MAMA_CAS_OAUTH_QQ_APP_KEY", "qq-key");
      ("MAMA_CAS_OAUTH_WEIBO_APP_KEY", "wb-key");
      ("MAMA_CAS_OAUTH_WEIBO_APP_SECRET", "wb-secret");
      ("MAMA_CAS_OAUTH_WECHAT_APP_ID", "wx-id");
      ("MAMA_CAS_OAUTH_WECHAT_APP_SECRET", "wx-secret");
      ("MAMA_CAS_OAUTH_EMAIL", "@example.org") ].

(** Tokens [ST-], [ST-x], [ST-xx], ...: one [x] per ticket already stored. *)
Definition new_ticket (ts : list ServiceTicket) : string :=
  fold_right (fun _ acc => acc ++ "x") "ST-" ts.

Definition alice : User := mkUser "alice" "wonderland" (VStr "alice@example.org").

Definition app : string := "https://app.example/cb".

Definition login_request (query : list (string * string)) : Request :=
  mkRequest "https" "cas.example.org" "/login" query.

Definition anonymous : World := mkWorld [alice] [] (mkSession None false) [].

Definition signed_in : World := mkWorld [alice] [] (mkSession (Some alice) false) [].

Definition signed_in_warn : World := mkWorld [alice] [] (mkSession (Some alice) true) [].

(** Modelled from the spec: [validate_service_ticket] of mama_cas/cas.py is
    not among the sources; this follows TicketAuthority.consume: unknown
    token, already consumed, service mismatch, [renew] on a ticket that is
    not primary, and otherwise the ticket marked consumed and returned.
    Expiry and the proxy callback are not represented ([pgt] is [None]). *)
Fixpoint consume (service token : string) (renew : bool) (ts : list ServiceTicket)
  : (option ServiceTicket * option ValidationError) * list ServiceTicket :=
  match ts with
  | [] => ((None, Some (mkError "INVALID_TICKET" "not found")), [])
  | t :: ts' =>
      if String.eqb (st_ticket t) token then
        if st_consumed t then
          ((None, Some (mkError "INVALID_TICKET" "already consumed")), ts)
        else if negb (String.eqb (st_service t) service) then
          ((None, Some (mkError "INVALID_SERVICE" "service mismatch")), ts)
        else if renew && negb (st_primary t) then
          ((None, Some (mkError "INVALID_TICKET" "credentials required")), ts)
        else
          let t' := mkST (st_ticket t) (st_service t) (st_user t) (st_primary t) true in
          ((Some t', None), t' :: ts')
      else
        let '(r, ts'') := consume service token renew ts' in (r, t :: ts'')
  end.

Definition validate_service_ticket (service ticket pgturl : option string) (renew : bool)
  (w : World) : Validation * World :=
  match service, ticket with
  | Some s, Some t =>
      let '((st, error), ts) := consume s t renew (tickets w) in
      ((st, None, error), set_tickets ts w)
  | _, _ => ((None, None, Some (mkError "INVALID_REQUEST" "missing parameter")), w)
  end.

(** The providers.  Response bodies are named rather than spelled out, and
    [json_loads] is the table that decodes the named documents; a body it
    does not know is not JSON. *)
Definition json_loads (body : string) : option pyval :=
  Py.assoc body
    [ ("github-token", VDict [("access_token", VStr "tok"); ("token_type", VStr "bearer")]);
      ("github-user", VDict [("login", VStr "octocat"); ("email", VStr "octocat@example.org")]);
      ("wechat-error", VDict [("errcode", VInt 40029); ("errmsg", VStr "invalid code")]) ].

(** Every token exchange is answered. *)
Definition urlopen_post (url : string) (data : list (string * pyval)) : option string :=
  Py.assoc url
    [ ("https://github.com/login/oauth/access_token", "github-token");
      ("https://graph.qq.com/oauth2.0/token", "access_token=tok&expires_in=7776000") ].

(** GitHub's profile endpoint answers. *)
Definition urlopen_up (url : string) : option string :=
  Py.assoc url [ ("https://api.github.com/user?access_token=tok", "github-user") ].

(** No GET goes through: the network is down after the token exchange. *)
Definition urlopen_down (url : string) : option string := None.

(** WeChat answers the token request with its error document. *)
Definition urlopen_wechat_error (url : string) : option string :=
  if PyStr.startswith url "https://api.weixin.qq.com/sns/oauth2/access_token?"
  then Some "wechat-error" else None.

Definition get_initial (nickname : string) : string := nickname.

Definition oauth_request (query : list (string * string)) : Request :=
  mkRequest "http" "cas.example.org" "/oauth" query.

Definition octocat : User :=
  mkUser "octocat_github" "s3cr3t" (VStr "octocat@example.org").

(** QQ: the openid answer comes wrapped, the user document plain. *)
Definition json_loads_qq (body : string) : option pyval :=
  Py.assoc body
    [ ("qq-me ", VDict [("client_id", VStr "qq-id"); ("openid", VStr "OPENID")]);
      ("qq-info", VDict [("ret", VInt 0); ("nickname", VStr "zs")]) ].

Definition urlopen_qq (url : string) : option string :=
  Py.assoc url
    [ ("https://graph.qq.com/oauth2.0/me?access_token=tok",
       "callback( qq-me );" ++ PyStr.nl);
      ("https://graph.qq.com/user/get_user_info?access_token=tok&oauth_consumer_key=qq-id&openid=OPENID",
       "qq-info") ].

(** Instances for the CAS 2.0 validators: no proxy ticket is known, the
    attributes are the e-mail address, proxy tickets begin with PT. *)
Definition validate_proxy_ticket (service ticket pgturl : option string) (w : World)
  : (option ProxyTicket * option string * option (list string) * option ValidationError)
    * World :=
  ((None, None, None, Some (mkError "INVALID_TICKET" "not found")), w).

Definition get_attributes (u : User) (service : string) : list (string * pyval) :=
  [("email", email u)].

Definition TICKET_PREFIX : string := "PT".

Definition validate_request (query : list (string * string)) : Request :=
  mkRequest "https" "cas.example.org" "/proxyValidate" query.

(** A token endpoint that answers in the form encoding, which no JSON
    decoder accepts. *)
Definition urlopen_post_form (url : string) (data : list (string * pyval)) : option string :=
  Some "access_token=tok&scope=&token_type=bearer".

(** A token endpoint that cannot be reached. *)
Definition urlopen_post_down (url : string) (data : list (string * pyval)) : option string :=
  None.

(** The registry of this deployment allows the https services. *)
Definition is_allowed (service : string) : bool := PyStr.startswith service "https://".

(** The same request as HTTP/1.0 sends it: without a Host header. *)
Definition without_host (request : Request) : Request :=
  Build_Request (scheme request) None (path request) (GET request).

(** A deployment that does not use WeChat and leaves its settings out. *)
Definition settings_without_wechat (name : string) : option string :=
  if PyStr.startswith name "MAMA_CAS_OAUTH_WECHAT" then None else settings name.

End Deployment.

(** * Properties *)

Lemma nonempty_true s : s <> "" -> PyStr.nonempty s = true.
Proof. destruct s; [congruence | reflexivity]. Qed.

Lemma nonempty_false s : PyStr.nonempty s = false -> s = "".
Proof. destruct s; [reflexivity | discriminate]. Qed.

(** ** ValidateView *)

Section ValidateProps.

Variable to_bool : option string -> bool.
Variable validate : option string -> option string -> option string -> bool ->
                    World -> Validation * World.

(** C3: the body of the /validate response is "yes", newline, the ticket
    owner's username, newline when the validator returns a ticket, and "no"
    followed by two newlines when it returns none, whatever the error (and
    the proxy-granting ticket) it reports besides; the response is always
    text/plain and the view never raises. *)
Theorem ValidateView_get_plaintext (request : Request) (w : World) :
  (forall st pgt error w',
     validate_call to_bool validate request w = ((Some st, pgt, error), w') ->
     ValidateView_get to_bool validate request w =
       (Ok (HttpResponse ("yes" ++ PyStr.nl ++ username (st_user st) ++ PyStr.nl)
                         "text/plain"), w')) /\
  (forall pgt error w',
     validate_call to_bool validate request w = ((None, pgt, error), w') ->
     ValidateView_get to_bool validate request w =
       (Ok (HttpResponse ("no" ++ PyStr.nl ++ PyStr.nl) "text/plain"), w')).
Proof.
  unfold validate_call, flag, ValidateView_get.
  split; intros * Hcall; rewrite Hcall; reflexivity.
Qed.

End ValidateProps.

Lemma ValidateView_get_plaintext_witness :
  let ok := mkRequest "https" "cas.example.org" "/validate"
              [("service", Deployment.app); ("ticket", "ST-")] in
  let ko := mkRequest "https" "cas.example.org" "/validate"
              [("service", "https://other.example/"); ("ticket", "ST-")] in
  let w := set_tickets [mkST "ST-" Deployment.app Deployment.alice false false]
                       Deployment.anonymous in
  let w' := set_tickets [mkST "ST-" Deployment.app Deployment.alice false true]
                        Deployment.anonymous in
  ValidateView_get Deployment.to_bool Deployment.validate_service_ticket ok w =
    (Ok (HttpResponse ("yes" ++ PyStr.nl ++ "alice" ++ PyStr.nl) "text/plain"), w') /\
  ValidateView_get Deployment.to_bool Deployment.validate_service_ticket ko w =
    (Ok (HttpResponse ("no" ++ PyStr.nl ++ PyStr.nl) "text/plain"), w).
Proof.
  intros ok ko w w'. split.
  - apply (proj1 (ValidateView_get_plaintext Deployment.to_bool
                    Deployment.validate_service_ticket ok w)
                 (mkST "ST-" Deployment.app Deployment.alice false true) None None w').
    reflexivity.
  - apply (proj2 (ValidateView_get_plaintext Deployment.to_bool
                    Deployment.validate_service_ticket ko w)
                 None (Some (mkError "INVALID_SERVICE" "service mismatch")) w).
    reflexivity.
Defined.

(** ** LoginView as credential requestor *)

Section LoginProps.

Variable settings : string -> option string.
Variable to_bool : option string -> bool.
Variable new_ticket : list ServiceTicket -> string.
Variable is_allowed : string -> bool.

Local Abbreviation get := (LoginView_get settings to_bool new_ticket is_allowed).
Local Abbreviation setup := (LoginView_setup settings).
Local Abbreviation flag := (flag to_bool).
Local Abbreviation transparent_ticket := (transparent_ticket new_ticket).
Local Abbreviation render := (FormView_render settings).
Local Abbreviation issue := (issue_and_redirect new_ticket is_allowed).

(** The form is rendered when the one setting read without a default is
    there, and AttributeError raised when it is not. *)
Lemma FormView_render_run (self : LoginView) (w : World) :
  render self w =
    match settings "MAMA_CAS_OAUTH_WECHAT_APP_ID" with
    | Some _ => (Ok (FormView_get self), w)
    | None => (Raise AttributeError, w)
    end.
Proof.
  unfold FormView_render, LoginView_get_context_data, getattr.
  destruct (settings "MAMA_CAS_OAUTH_WECHAT_APP_ID"); reflexivity.
Qed.

Lemma issue_and_redirect_run (service : string) (u : User) (w : World) :
  issue service u w =
    if is_allowed service then
      (Ok (if warn (session w)
           then redirect "cas_warn"
                  [("service", service);
                   ("ticket", st_ticket (transparent_ticket service u w))]
           else redirect service [("ticket", st_ticket (transparent_ticket service u w))]),
       set_tickets (transparent_ticket service u w :: tickets w) w)
    else (Raise Rejected, w).
Proof.
  unfold issue_and_redirect, create_ticket, warn_user, bind, ret.
  destruct (is_allowed service); simpl; [|reflexivity].
  destruct (warn (session w)); reflexivity.
Qed.

(** [LoginView.get] raises KeyError on a request without a Host header. *)
Lemma LoginView_get_without_host (request : Request) (w : World) :
  http_host request = None -> get request w = (Raise KeyError, w).
Proof.
  intros Hhost. unfold LoginView_get, META_HTTP_HOST, bind, lift.
  rewrite Hhost. reflexivity.
Qed.

(** [LoginView.get] on a request with a Host header, branch by branch, with
    the two issuance blocks merged. *)
Lemma LoginView_get_cases (request : Request) (host : string) (w : World) :
  http_host request = Some host ->
  get request w =
    if flag request "renew" then render (setup request host) w
    else match auth_user (session w) with
         | Some u =>
             if PyStr.nonempty (lv_service (setup request host))
             then issue (lv_service (setup request host)) u w
             else render (setup request host)
                    (set_messages (messages w ++ ["You are logged in as " ++ username u]) w)
         | None =>
             if flag request "gateway" && PyStr.nonempty (lv_service (setup request host))
             then (Ok (redirect (lv_service (setup request host)) []), w)
             else render (setup request host) w
         end.
Proof.
  intros Hhost. unfold LoginView_get, META_HTTP_HOST, flag.
  unfold bind at 1, lift at 1. rewrite Hhost.
  destruct (to_bool (QueryDict_get (GET request) "renew")); [reflexivity|].
  destruct (to_bool (QueryDict_get (GET request) "gateway"));
    destruct (PyStr.nonempty (lv_service (setup request host))); simpl;
    unfold bind, request_user, messages_success; destruct (auth_user (session w));
    reflexivity.
Qed.

(** Without [renew], with a Host header, a session and a non-empty service,
    both branches of [LoginView.get] run the same issuance. *)
Lemma LoginView_get_transparent (request : Request) (host : string) (w : World) (u : User) :
  http_host request = Some host ->
  flag request "renew" = false ->
  auth_user (session w) = Some u ->
  lv_service (setup request host) <> "" ->
  get request w = issue (lv_service (setup request host)) u w.
Proof.
  intros Hhost Hrenew Huser Hservice.
  rewrite (LoginView_get_cases request host w Hhost), Hrenew, Huser.
  now rewrite (nonempty_true _ Hservice).
Qed.

(** What a GET /login can do to the tickets and answer with, whatever the
    request: no change, or one ticket more for the session's user, with the
    answer that goes with it. *)
Lemma LoginView_get_outcome (request : Request) (w : World) :
  tickets (snd (get request w)) = tickets w /\
  (forall to t, fst (get request w) <> Ok (redirect to [("ticket", t)])) \/
  exists host u,
    http_host request = Some host /\ flag request "renew" = false /\
    auth_user (session w) = Some u /\ lv_service (setup request host) <> "" /\
    is_allowed (lv_service (setup request host)) = true /\
    get request w = issue (lv_service (setup request host)) u w.
Proof.
  destruct (http_host request) as [host|] eqn:Hhost.
  2: { left. rewrite (LoginView_get_without_host request w Hhost). simpl.
       repeat split; auto. intros to t H. discriminate H. }
  assert (Hrender : forall self w', tickets w' = tickets w ->
            tickets (snd (render self w')) = tickets w /\
            forall to t, fst (render self w') <> Ok (redirect to [("ticket", t)])).
  { intros self w' Hw'. rewrite FormView_render_run.
    destruct (settings "MAMA_CAS_OAUTH_WECHAT_APP_ID"); simpl;
      (split; [exact Hw' | intros to t H; discriminate H]). }
  pose proof (LoginView_get_cases request host w Hhost) as Hcases.
  destruct (flag request "renew") eqn:Hrenew.
  { left. rewrite Hcases. destruct (Hrender (setup request host) w eq_refl). auto. }
  destruct (auth_user (session w)) as [u|] eqn:Huser.
  - destruct (PyStr.nonempty (lv_service (setup request host))) eqn:Hservice.
    + destruct (is_allowed (lv_service (setup request host))) eqn:Hallowed.
      * right. exists host, u. repeat split; auto.
        intros H. rewrite H in Hservice. discriminate Hservice.
      * left. rewrite Hcases, issue_and_redirect_run, Hallowed. simpl.
        repeat split; auto. intros to t H. discriminate H.
    + left. rewrite Hcases.
      destruct (Hrender (setup request host)
                  (set_messages (messages w ++ [("You are logged in as " ++ username u)%string])
                                w) eq_refl). auto.
  - left. rewrite Hcases.
    destruct (flag request "gateway" && PyStr.nonempty (lv_service (setup request host))).
    + simpl. repeat split; auto. intros to t H. discriminate H.
    + destruct (Hrender (setup request host) w eq_refl). auto.
Qed.

Lemma cons_neq {A} (x : A) (l : list A) : x :: l <> l.
Proof.
  intros H. apply (f_equal (@List.length A)) in H. simpl in H. lia.
Qed.

(** With [renew] set, a GET /login changes no store and redirects nowhere,
    whatever else the request and the session hold; it answers with the
    credential form when the request has a Host header and the setting that
    [get_context_data] reads without a default is configured. *)
Lemma LoginView_get_renew_form (request : Request) (w : World) :
  flag request "renew" = true ->
  snd (get request w) = w /\
  (forall to params, fst (get request w) <> Ok (redirect to params)) /\
  (forall host appid,
     http_host request = Some host ->
     settings "MAMA_CAS_OAUTH_WECHAT_APP_ID" = Some appid ->
     get request w = (Ok (FormView_get (setup request host)), w)).
Proof.
  intros Hrenew. destruct (http_host request) as [host|] eqn:Hhost.
  - rewrite (LoginView_get_cases request host w Hhost), Hrenew, FormView_render_run.
    destruct (settings "MAMA_CAS_OAUTH_WECHAT_APP_ID") as [appid|]; simpl;
      repeat split; try (intros to params H; discriminate H).
    + intros ? ? [= <-] _. reflexivity.
    + intros ? ? _ H. discriminate H.
  - rewrite (LoginView_get_without_host request w Hhost). simpl.
    repeat split; intros to params H; discriminate H.
Qed.

(** C4, amended: a GET /login that carries a Host header, whose [gateway]
    flag is set and whose [renew] flag is not, with a non-empty service
    parameter, from a client with no authenticated session, is answered by a
    redirect to the service with no parameter added, and the stores are left
    as they were. *)
Theorem LoginView_get_gateway_anonymous (request : Request) (w : World)
    (host service : string) :
  http_host request = Some host ->
  flag request "renew" = false ->
  flag request "gateway" = true ->
  QueryDict_get (GET request) "service" = Some service ->
  service <> "" ->
  auth_user (session w) = None ->
  get request w = (Ok (redirect service []), w).
Proof.
  intros Hhost Hrenew Hgateway Hget Hservice Huser.
  rewrite (LoginView_get_cases request host w Hhost), Hrenew, Hgateway, Huser.
  unfold LoginView_setup. simpl. rewrite Hget, (nonempty_true _ Hservice). reflexivity.
Qed.

(** C6, amended: whatever the request, a GET /login by a session carrying
    the warn flag never redirects to a service with the ticket attached, and
    each of its runs that stores a ticket (the gateway-with-session case and
    the existing-session-with-service case alike) answers with the redirect
    to the warn step, carrying the service and the token of the ticket just
    stored.  Such a run takes place whenever the request has a Host header,
    [renew] is off, a user is signed in and the service is not empty and
    allowed. *)
Theorem LoginView_get_warn (request : Request) (w : World) :
  warn (session w) = true ->
  (forall to t, fst (get request w) <> Ok (redirect to [("ticket", t)])) /\
  (forall st, tickets (snd (get request w)) = st :: tickets w ->
     fst (get request w) =
       Ok (redirect "cas_warn" [("service", st_service st); ("ticket", st_ticket st)])) /\
  (forall host u,
     http_host request = Some host ->
     flag request "renew" = false ->
     auth_user (session w) = Some u ->
     lv_service (setup request host) <> "" ->
     is_allowed (lv_service (setup request host)) = true ->
     let service := lv_service (setup request host) in
     let st := transparent_ticket service u w in
     get request w =
       (Ok (redirect "cas_warn" [("service", service); ("ticket", st_ticket st)]),
        set_tickets (st :: tickets w) w)).
Proof.
  intros Hwarn.
  assert (Hissue : forall host u,
            is_allowed (lv_service (setup request host)) = true ->
            issue (lv_service (setup request host)) u w =
              (Ok (redirect "cas_warn"
                     [("service", lv_service (setup request host));
                      ("ticket",
                       st_ticket (transparent_ticket (lv_service (setup request host)) u w))]),
               set_tickets (transparent_ticket (lv_service (setup request host)) u w
                            :: tickets w) w)).
  { intros host u Hallowed. now rewrite issue_and_redirect_run, Hallowed, Hwarn. }
  destruct (LoginView_get_outcome request w)
    as [[Hsame Hnever] | (host & u & Hhost & Hrenew & Huser & Hservice & Hallowed & Hget)].
  - split; [exact Hnever|]. split.
    + intros st Hst. rewrite Hsame in Hst. symmetry in Hst. now elim (cons_neq _ _ Hst).
    + intros host u Hhost Hrenew Huser Hservice Hallowed service st.
      rewrite (LoginView_get_transparent request host w u Hhost Hrenew Huser Hservice)
        in Hsame.
      rewrite (Hissue host u Hallowed) in Hsame. simpl in Hsame.
      now elim (cons_neq _ _ Hsame).
  - rewrite Hget, (Hissue host u Hallowed). simpl. split; [|split].
    + intros to t H. discriminate H.
    + intros st [= <-]. reflexivity.
    + intros host' u' Hhost' _ Huser' _ _. rewrite Hhost in Hhost'. rewrite Huser in Huser'.
      injection Hhost' as <-. injection Huser' as <-. reflexivity.
Qed.

(** C10, amended: a GET /login with no service parameter runs on the
    configured MAMA_CAS_DEFAULT_SERVICE; when the request carries a Host
    header, that value is not empty and is allowed, the [renew] flag is not set
    and a session is active, a ticket that is not primary is stored for the
    default service and the client is redirected there with the token, or to
    the warn step when the session carries the warn flag; the status page is
    not shown. *)
Theorem LoginView_get_default_service (request : Request) (w : World) :
  QueryDict_get (GET request) "service" = None ->
  let service := getattr_default settings "MAMA_CAS_DEFAULT_SERVICE" "" in
  (forall host, lv_service (setup request host) = service) /\
  forall host u,
    http_host request = Some host ->
    flag request "renew" = false ->
    auth_user (session w) = Some u ->
    service <> "" ->
    is_allowed service = true ->
    let st := transparent_ticket service u w in
    get request w =
      (Ok (if warn (session w)
           then redirect "cas_warn" [("service", service); ("ticket", st_ticket st)]
           else redirect service [("ticket", st_ticket st)]),
       set_tickets (st :: tickets w) w).
Proof.
  intros Hget service.
  assert (Hsetup : forall host, lv_service (setup request host) = service).
  { intros host. subst service. unfold LoginView_setup. simpl. rewrite Hget. reflexivity. }
  split; [exact Hsetup|].
  intros host u Hhost Hrenew Huser Hservice Hallowed st.
  rewrite (LoginView_get_transparent request host w u Hhost Hrenew Huser);
    rewrite (Hsetup host); [|exact Hservice].
  rewrite issue_and_redirect_run, Hallowed. reflexivity.
Qed.

End LoginProps.

(** ** LoginView as credential acceptor *)

Section FormValidProps.

Variable new_ticket : list ServiceTicket -> string.
Variable is_allowed : string -> bool.

Local Abbreviation form_valid := (LoginView_form_valid new_ticket is_allowed).

(** C7, amended: after a successful credential presentation on POST /login
    with a service parameter that is not empty and is allowed, the session
    belongs to the authenticated user, one ticket has been added to the store,
    for that service and that user and with primary set, the response
    redirects to the service with that ticket's token, and a requested warn
    option is on the session. *)
Theorem LoginView_form_valid_service (request : Request) (form : LoginForm) (w : World)
    (service : string) :
  QueryDict_get (GET request) "service" = Some service ->
  service <> "" ->
  is_allowed service = true ->
  exists st w',
    form_valid request form w =
      (Ok (redirect service [("ticket", st_ticket st)]), w') /\
    auth_user (session w') = Some (form_user form) /\
    tickets w' = st :: tickets w /\
    st_service st = service /\
    st_user st = form_user form /\
    st_primary st = true /\
    st_consumed st = false /\
    (form_warn form = true -> warn (session w') = true).
Proof.
  intros Hget Hservice Hallowed.
  unfold LoginView_form_valid. rewrite Hget, (nonempty_true _ Hservice).
  unfold bind at 1. unfold login.
  exists (mkST (new_ticket (tickets w)) service (form_user form) true false).
  destruct (form_warn form); unfold bind, ret, request_user, create_ticket; simpl;
    rewrite Hallowed; eexists; repeat split; intros; try reflexivity; discriminate.
Qed.

(** X14: With no service parameter, or an empty one, the credential acceptor
    stores no ticket and redirects to the login page. *)
Lemma LoginView_form_valid_no_service (request : Request) (form : LoginForm) (w : World) :
  QueryDict_get (GET request) "service" = None \/
  QueryDict_get (GET request) "service" = Some "" ->
  fst (form_valid request form w) = Ok (redirect "cas_login" []) /\
  tickets (snd (form_valid request form w)) = tickets w.
Proof.
  intros [Hget | Hget]; unfold LoginView_form_valid; rewrite Hget;
    unfold bind, login, ret; destruct (form_warn form); split; reflexivity.
Qed.

(** An issuance that is rejected leaves the credential acceptor with the
    session established and no ticket. *)
Lemma LoginView_form_valid_rejected (request : Request) (form : LoginForm) (w : World)
    (service : string) :
  QueryDict_get (GET request) "service" = Some service ->
  service <> "" ->
  is_allowed service = false ->
  fst (form_valid request form w) = Raise Rejected /\
  tickets (snd (form_valid request form w)) = tickets w /\
  auth_user (session (snd (form_valid request form w))) = Some (form_user form).
Proof.
  intros Hget Hservice Hallowed.
  unfold LoginView_form_valid. rewrite Hget, (nonempty_true _ Hservice).
  unfold bind, login, ret, request_user, create_ticket.
  destruct (form_warn form); simpl; rewrite Hallowed; repeat split.
Qed.

End FormValidProps.

(** ** Concrete runs of LoginView *)

Section LoginRuns.

Import Deployment.

Local Abbreviation get := (LoginView_get settings to_bool new_ticket is_allowed).
Local Abbreviation flag := (flag to_bool).
Local Abbreviation form_valid := (LoginView_form_valid new_ticket is_allowed).

(** C5, on the code: with [renew] set, the credential form is the answer in
    a deployment that configures MAMA_CAS_OAUTH_WECHAT_APP_ID, to a request
    with a Host header; the same request raises AttributeError where that
    setting is left out, [get_context_data] reading it without the default
    [do_wechat] gives it, and raises KeyError when it comes without a Host
    header. *)
Theorem LoginView_get_renew_raises :
  let request := login_request [("service", app); ("renew", "true")] in
  flag request "renew" = true /\
  get request signed_in =
    (Ok (FormView_get (mkLoginView "https" "cas.example.org" "/" app)), signed_in) /\
  LoginView_get settings_without_wechat to_bool new_ticket is_allowed request signed_in =
    (Raise AttributeError, signed_in) /\
  get (without_host request) signed_in = (Raise KeyError, signed_in).
Proof.
  repeat split.
Qed.

Lemma LoginView_get_gateway_anonymous_witness :
  let request := login_request [("service", app); ("gateway", "true")] in
  get request anonymous = (Ok (redirect app []), anonymous).
Proof.
  intros request.
  apply (LoginView_get_gateway_anonymous settings to_bool new_ticket is_allowed request
           anonymous "cas.example.org" app);
    [reflexivity | reflexivity | reflexivity | reflexivity | discriminate | reflexivity].
Defined.

(** C4 as stated fails: [gateway] set, a service parameter, no session, and
    yet the credential form instead of the redirect, because [renew] is set
    as well and is tested first; and yet KeyError instead of the redirect,
    because the request has no Host header. *)
Lemma LoginView_get_gateway_counterexample :
  let request := login_request [("service", app); ("gateway", "true"); ("renew", "true")] in
  let bare := without_host (login_request [("service", app); ("gateway", "true")]) in
  (flag request "gateway" = true /\
   QueryDict_get (GET request) "service" = Some app /\
   auth_user (session anonymous) = None /\
   get request anonymous =
     (Ok (FormView_get (mkLoginView "https" "cas.example.org" "/" app)), anonymous) /\
   get request anonymous <> (Ok (redirect app []), anonymous)) /\
  (flag bare "gateway" = true /\
   QueryDict_get (GET bare) "service" = Some app /\
   get bare anonymous = (Raise KeyError, anonymous) /\
   get bare anonymous <> (Ok (redirect app []), anonymous)).
Proof.
  repeat split; discriminate.
Qed.

Lemma LoginView_get_warn_witness :
  let request := login_request [("service", app)] in
  (forall to t, fst (get request signed_in_warn) <> Ok (redirect to [("ticket", t)])) /\
  (forall st, tickets (snd (get request signed_in_warn)) = st :: tickets signed_in_warn ->
     fst (get request signed_in_warn) =
       Ok (redirect "cas_warn" [("service", st_service st); ("ticket", st_ticket st)])) /\
  get request signed_in_warn =
    (Ok (redirect "cas_warn" [("service", app); ("ticket", "ST-")]),
     set_tickets [mkST "ST-" app alice false false] signed_in_warn).
Proof.
  intros request.
  destruct (LoginView_get_warn settings to_bool new_ticket is_allowed request
              signed_in_warn eq_refl) as (Hnever & Hissued & Hrun).
  split; [exact Hnever|]. split; [exact Hissued|].
  apply (Hrun "cas.example.org" alice); [reflexivity | reflexivity | reflexivity | discriminate | reflexivity].
Defined.

Lemma LoginView_get_default_service_witness :
  let request := login_request [] in
  lv_service (LoginView_setup settings request "cas.example.org") = "https://portal.example/" /\
  get request signed_in =
    (Ok (redirect "https://portal.example/" [("ticket", "ST-")]),
     set_tickets [mkST "ST-" "https://portal.example/" alice false false] signed_in).
Proof.
  intros request.
  destruct (LoginView_get_default_service settings to_bool new_ticket is_allowed request
              signed_in eq_refl) as [Hservice Hissue].
  split; [exact (Hservice "cas.example.org")|].
  apply (Hissue "cas.example.org" alice);
    [reflexivity | reflexivity | reflexivity | discriminate | reflexivity].
Defined.

(** C10 as stated fails: no service parameter, a default service, an active
    session, and yet neither ticket nor redirect, because [renew] is set;
    nor are there any because the request has no Host header, or because the
    default service is one the registry does not allow. *)
Lemma LoginView_get_default_service_counterexample :
  let request := login_request [("renew", "true")] in
  let bare := without_host (login_request []) in
  let intranet name :=
    if name =? "MAMA_CAS_DEFAULT_SERVICE" then Some "http://intranet.example/"
    else settings name in
  (QueryDict_get (GET request) "service" = None /\
   getattr_default settings "MAMA_CAS_DEFAULT_SERVICE" "" = "https://portal.example/" /\
   auth_user (session signed_in) = Some alice /\
   get request signed_in =
     (Ok (FormView_get (mkLoginView "https" "cas.example.org" "/" "https://portal.example/")),
      signed_in)) /\
  (QueryDict_get (GET bare) "service" = None /\
   get bare signed_in = (Raise KeyError, signed_in)) /\
  (getattr_default intranet "MAMA_CAS_DEFAULT_SERVICE" "" = "http://intranet.example/" /\
   LoginView_get intranet to_bool new_ticket is_allowed (login_request []) signed_in =
     (Raise Rejected, signed_in)).
Proof.
  repeat split.
Qed.

Lemma LoginView_form_valid_service_witness :
  let request := login_request [("service", app)] in
  exists st w',
    form_valid request (mkForm alice true) anonymous =
      (Ok (redirect app [("ticket", st_ticket st)]), w') /\
    auth_user (session w') = Some alice /\
    tickets w' = st :: tickets anonymous /\
    st_service st = app /\
    st_user st = alice /\
    st_primary st = true /\
    st_consumed st = false /\
    (true = true -> warn (session w') = true).
Proof.
  intros request.
  apply (LoginView_form_valid_service new_ticket is_allowed request (mkForm alice true)
           anonymous app);
    [reflexivity | discriminate | reflexivity].
Defined.

(** C7 as stated fails: credentials accepted and a service parameter present,
    and yet no ticket and a redirect to the login page, because the parameter
    is empty; and yet no ticket and no redirect, because the issuance rejects
    a service the registry does not allow. *)
Lemma LoginView_form_valid_service_counterexample :
  let empty := login_request [("service", "")] in
  let plain := login_request [("service", "http://app.example/cb")] in
  (QueryDict_get (GET empty) "service" = Some "" /\
   form_valid empty (mkForm alice false) anonymous =
     (Ok (redirect "cas_login" []),
      set_session (mkSession (Some alice) false) anonymous)) /\
  (QueryDict_get (GET plain) "service" = Some "http://app.example/cb" /\
   is_allowed "http://app.example/cb" = false /\
   form_valid plain (mkForm alice false) anonymous =
     (Raise Rejected, set_session (mkSession (Some alice) false) anonymous)).
Proof.
  repeat split.
Qed.

(** C6 as stated fails: a session with the warn flag on the
    gateway-with-session path, and yet no redirect to the warn step, because
    the issuance rejects a service the registry does not allow; and on the
    existing-session-with-service path none either, because the request has
    no Host header. *)
Lemma LoginView_get_warn_counterexample :
  let plain := login_request [("service", "http://app.example/cb"); ("gateway", "true")] in
  let bare := without_host (login_request [("service", app)]) in
  warn (session signed_in_warn) = true /\
  auth_user (session signed_in_warn) = Some alice /\
  (flag plain "gateway" = true /\
   QueryDict_get (GET plain) "service" = Some "http://app.example/cb" /\
   is_allowed "http://app.example/cb" = false /\
   get plain signed_in_warn = (Raise Rejected, signed_in_warn)) /\
  (QueryDict_get (GET bare) "service" = Some app /\
   get bare signed_in_warn = (Raise KeyError, signed_in_warn)).
Proof.
  repeat split.
Qed.

End LoginRuns.

(** ** OAuthView: what a callback does to the ticket store *)

Section OAuthProps.

Variable settings : string -> option string.
Variable new_ticket : list ServiceTicket -> string.
Variable is_allowed : string -> bool.
Variable urlopen : string -> option string.
Variable urlopen_post : string -> list (string * pyval) -> option string.
Variable json_loads : string -> option pyval.
Variable get_initial : string -> string.

Local Abbreviation outcome := (oauth_outcome new_ticket).

(** A handler is safe when each of its runs has an [oauth_outcome]. *)
Local Abbreviation safe m := (forall w : World, outcome w (m w)).

Lemma safe_ret_text (content content_type : string) :
  safe (ret (HttpResponse content content_type)).
Proof.
  intros w. left. split; [reflexivity|]. simpl. intros to params H. discriminate H.
Qed.

(** A step that leaves the tickets alone may come first. *)
Lemma safe_bind {A} (m : M A) (k : A -> M Response) :
  (forall w, tickets (snd (m w)) = tickets w) ->
  (forall a, safe (k a)) ->
  safe (bind m k).
Proof.
  intros Hm Hk w. unfold bind. specialize (Hm w).
  destruct (m w) as [[a|e] w1]; simpl in Hm.
  - specialize (Hk a w1). unfold oauth_outcome, transparent_ticket in *.
    rewrite Hm in Hk. exact Hk.
  - left. split; [exact Hm|]. simpl. intros to params H. discriminate H.
Qed.

Lemma safe_lift {A} (r : res A) (k : A -> M Response) :
  (forall a, safe (k a)) -> safe (bind (lift r) k).
Proof. intros Hk. apply safe_bind; [reflexivity | exact Hk]. Qed.

Lemma sync_user_tickets (name pass : string) (mail : pyval) (w : World) :
  tickets (snd (__sync_user name pass mail w)) = tickets w.
Proof.
  unfold __sync_user.
  destruct (User_get name (users w));
    match goal with
    | |- context [authenticate ?n ?p ?us] => destruct (authenticate n p us)
    end; reflexivity.
Qed.

Lemma safe_ticket_or (content : string) (service : string) (user : option User) :
  safe (ticket_or new_ticket is_allowed (HttpResponse content "text/plain") service user).
Proof.
  destruct user as [u|]; simpl; [|apply safe_ret_text].
  intros w. unfold bind, create_ticket. destruct (is_allowed service).
  - right. exists service, u. split; reflexivity.
  - left. split; [reflexivity|]. simpl. intros to params H. discriminate H.
Qed.

Lemma safe_sync (content name pass : string) (mail : pyval) (service : string) :
  safe (bind (__sync_user name pass mail)
             (ticket_or new_ticket is_allowed (HttpResponse content "text/plain") service)).
Proof.
  apply safe_bind; [apply sync_user_tickets | intros user; apply safe_ticket_or].
Qed.

Ltac safe_step :=
  match goal with
  | |- forall w : World, oauth_outcome _ w (bind (lift _) _ w) =>
      apply safe_lift; intros ?
  | |- forall w : World, oauth_outcome _ w (bind (__sync_user _ _ _) _ w) =>
      apply safe_sync
  | |- forall w : World, oauth_outcome _ w (ret (HttpResponse _ _) w) =>
      apply safe_ret_text
  | |- forall w : World, oauth_outcome _ w ((if ?b then _ else _) w) =>
      destruct b
  end.

Lemma do_github_safe code service :
  safe (do_github settings new_ticket is_allowed urlopen urlopen_post json_loads code service).
Proof. unfold do_github. repeat safe_step. Qed.

Lemma do_qq_safe code host service :
  safe (do_qq settings new_ticket is_allowed urlopen urlopen_post json_loads get_initial
              code host service).
Proof. unfold do_qq. repeat safe_step. Qed.

Lemma do_weibo_safe code host service :
  safe (do_weibo settings new_ticket is_allowed urlopen urlopen_post json_loads code host service).
Proof. unfold do_weibo. repeat safe_step. Qed.

Lemma do_wechat_safe code host service :
  safe (do_wechat settings new_ticket is_allowed urlopen json_loads get_initial code host service).
Proof. unfold do_wechat. repeat safe_step. Qed.

(** Whatever the providers answer, a callback either leaves the ticket store
    alone and does not redirect, or stores one ticket, issued as on the
    transparent paths of [LoginView.get], and redirects with it. *)
Lemma OAuthView_get_outcome (request : Request) (w : World) :
  outcome w (OAuthView_get settings new_ticket is_allowed urlopen urlopen_post json_loads get_initial
                           request w).
Proof.
  revert w. unfold OAuthView_get.
  destruct (QueryDict_get (GET request) "v") as [v|]; [|apply safe_ret_text].
  destruct (PyStr.nonempty v); [|apply safe_ret_text].
  destruct (PyStr.split "," v) as [|provider [|service [|x l]]]; try apply safe_ret_text.
  destruct (provider =? "github"); [apply do_github_safe|].
  destruct (provider =? "qq"); [apply safe_lift; intros; apply do_qq_safe|].
  destruct (provider =? "weibo"); [apply safe_lift; intros; apply do_weibo_safe|].
  destruct (provider =? "wechat");
    [apply safe_lift; intros; apply do_wechat_safe | apply safe_ret_text].
Qed.

(** X26: A token exchange that fails on the network is answered by the failure
    text of the provider, with every store as it was. *)
Lemma token_exchange_down (code : option string) (host service : string) (w : World) :
  (forall url data, urlopen_post url data = None) ->
  do_github settings new_ticket is_allowed urlopen urlopen_post json_loads code service w =
    (Ok (HttpResponse "GitHub OAuth failed" "text/plain"), w) /\
  do_qq settings new_ticket is_allowed urlopen urlopen_post json_loads get_initial code host service w =
    (Ok (HttpResponse "QQ登录失败!" "text/plain"), w) /\
  do_weibo settings new_ticket is_allowed urlopen urlopen_post json_loads code host service w =
    (Ok (HttpResponse "Weibo OAuth failed" "text/plain"), w).
Proof.
  intros Hdown. unfold do_github, do_qq, do_weibo, __http_post.
  rewrite !Hdown. repeat split.
Qed.

(** No ticket a callback stores is primary. *)
Lemma OAuthView_get_not_primary (request : Request) (w : World) :
  exists new,
    tickets (snd (OAuthView_get settings new_ticket is_allowed urlopen urlopen_post json_loads
                                get_initial request w)) = (new ++ tickets w)%list /\
    Forall (fun st => st_primary st = false) new.
Proof.
  destruct (OAuthView_get_outcome request w) as [[Hsame _] | (service & u & Hnew & _)].
  - exists []. split; [exact Hsame | constructor].
  - eexists [_]. split; [exact Hnew|]. repeat constructor.
Qed.

End OAuthProps.

(** ** The redirect URI of a federation flow *)

Lemma append_assoc (a b c : string) : (a ++ b) ++ c = a ++ b ++ c.
Proof. induction a as [|x a IH]; simpl; [reflexivity | now rewrite IH]. Qed.

Section RedirectUriProps.

Variable settings : string -> option string.

(** The four links of the login page, with the redirect URI singled out. *)
Lemma LoginView_get_context_data_links (self : LoginView) (wechat_app_id : string) :
  settings "MAMA_CAS_OAUTH_WECHAT_APP_ID" = Some wechat_app_id ->
  exists weibo_meta qq_meta,
    LoginView_get_context_data settings self =
      Ok [ ("oauth_weibo_meta_content", weibo_meta);
           ("oauth_qq_meta_content", qq_meta);
           ("oauth_github_url",
            "https://github.com/login/oauth/authorize?client_id="
              ++ getattr_default settings "MAMA_CAS_OAUTH_GITHUB_CLIENT_ID" ""
              ++ "&redirect_uri=" ++ authorization_redirect_uri self "github");
           ("oauth_qq_url",
            "https://graph.qq.com/oauth2.0/authorize?client_id="
              ++ getattr_default settings "MAMA_CAS_OAUTH_QQ_APP_ID" ""
              ++ "&redirect_uri=" ++ authorization_redirect_uri self "qq"
              ++ "&response_type=code&state=" ++ getattr_default settings "SECRET_KEY" "");
           ("oauth_weibo_url",
            "https://api.weibo.com/oauth2/authorize?client_id="
              ++ getattr_default settings "MAMA_CAS_OAUTH_WEIBO_APP_KEY" ""
              ++ "&redirect_uri=" ++ authorization_redirect_uri self "weibo"
              ++ "&response_type=code&scope=email");
           ("oauth_wechat_url",
            "https://open.weixin.qq.com/connect/qrconnect?appid=" ++ wechat_app_id
              ++ "&redirect_uri=" ++ authorization_redirect_uri self "wechat"
              ++ "&response_type=code&scope=snsapi_login#wechat_redirect") ].
Proof.
  intros Hid. unfold LoginView_get_context_data, getattr. rewrite Hid.
  do 2 eexists. unfold authorization_redirect_uri.
  repeat rewrite append_assoc. reflexivity.
Qed.

(** Served over plain http from the root of the site, the login page names
    the redirect URI the QQ and Weibo token exchanges send. *)
Lemma exchange_redirect_uri_http_root (self : LoginView) (code : option string) :
  lv_scheme self = "http" ->
  lv_path self = "/" ->
  exchange_redirect_uri (qq_token_data settings code (lv_http_host self) (lv_service self))
    = Some (VStr (authorization_redirect_uri self "qq")) /\
  exchange_redirect_uri (weibo_token_data settings code (lv_http_host self) (lv_service self))
    = Some (VStr (authorization_redirect_uri self "weibo")).
Proof.
  intros Hscheme Hpath. unfold authorization_redirect_uri. rewrite Hscheme, Hpath.
  split; reflexivity.
Qed.

(** Served over https, it never does, whatever the host, path and service. *)
Lemma exchange_redirect_uri_https (self : LoginView) (code : option string)
    (host service : string) :
  lv_scheme self = "https" ->
  exchange_redirect_uri (qq_token_data settings code host service)
    <> Some (VStr (authorization_redirect_uri self "qq")) /\
  exchange_redirect_uri (weibo_token_data settings code host service)
    <> Some (VStr (authorization_redirect_uri self "weibo")).
Proof.
  intros Hscheme. unfold authorization_redirect_uri. rewrite Hscheme.
  split; intros H; simpl in H; discriminate H.
Qed.

(** GitHub's token exchange carries no redirect URI. *)
Lemma github_exchange_redirect_uri (code : option string) :
  exchange_redirect_uri (github_token_data settings code) = None.
Proof. reflexivity. Qed.

End RedirectUriProps.

(** ** Concrete runs of the OAuth callback *)

Section OAuthRuns.

Import Deployment.

Local Abbreviation callback urlopen :=
  (OAuthView_get settings new_ticket is_allowed urlopen urlopen_post json_loads get_initial).

(** C2, on the code: GitHub answers both requests, the user is synced and
    signed in, and the ticket stored before the redirect has [primary]
    unset, where [form_valid] stores a primary one for the same user and
    service; a later validation of the callback's ticket with [renew] fails. *)
Theorem OAuthView_get_github_ticket_not_primary :
  let request := oauth_request [("v", "github,https://app.example/cb"); ("code", "abc")] in
  let out := callback urlopen_up request anonymous in
  let posted := LoginView_form_valid new_ticket is_allowed
                                     (login_request [("service", app)])
                                     (mkForm octocat false) anonymous in
  let renewed := mkRequest "https" "cas.example.org" "/validate"
                   [("service", app); ("ticket", "ST-"); ("renew", "true")] in
  fst out = Ok (redirect app [("ticket", "ST-")]) /\
  auth_user (session (snd out)) = Some octocat /\
  tickets (snd out) = [mkST "ST-" app octocat false false] /\
  tickets (snd posted) = [mkST "ST-" app octocat true false] /\
  fst (ValidateView_get to_bool validate_service_ticket renewed (snd out)) =
    Ok (HttpResponse ("no" ++ PyStr.nl ++ PyStr.nl) "text/plain") /\
  fst (ValidateView_get to_bool validate_service_ticket renewed (snd posted)) =
    Ok (HttpResponse ("yes" ++ PyStr.nl ++ "octocat_github" ++ PyStr.nl) "text/plain").
Proof.
  repeat split.
Qed.

(** C8, on the code: a login page served over https names an https redirect
    URI in its QQ and Weibo links; the callback the provider then reaches
    hands host and service to [do_qq] and [do_weibo], which send an http one
    with the token exchange. *)
Theorem exchange_redirect_uri_differs_over_https :
  let self := LoginView_setup settings (login_request [("service", app)])
                              "cas.example.org" in
  let back provider :=
    mkRequest "https" "cas.example.org" "/oauth"
              [("v", provider ++ "," ++ app); ("code", "abc")] in
  authorization_redirect_uri self "qq" =
    "https://cas.example.org/oauth?v=qq,https://app.example/cb" /\
  authorization_redirect_uri self "weibo" =
    "https://cas.example.org/oauth?v=weibo,https://app.example/cb" /\
  callback urlopen_up (back "qq") =
    do_qq settings new_ticket is_allowed urlopen_up urlopen_post json_loads get_initial
          (Some "abc") "cas.example.org" app /\
  callback urlopen_up (back "weibo") =
    do_weibo settings new_ticket is_allowed urlopen_up urlopen_post json_loads
             (Some "abc") "cas.example.org" app /\
  exchange_redirect_uri (qq_token_data settings (Some "abc") "cas.example.org" app) =
    Some (VStr "http://cas.example.org/oauth?v=qq,https://app.example/cb") /\
  exchange_redirect_uri (weibo_token_data settings (Some "abc") "cas.example.org" app) =
    Some (VStr "http://cas.example.org/oauth?v=weibo,https://app.example/cb").
Proof.
  repeat split.
Qed.

(** C9, on the code: three callbacks raise instead of answering with the
    failure text.  GitHub: the profile request fails on the network and
    [data['login']] is applied to [None].  QQ: the request for the openid
    fails on the network and [data.startswith] is applied to [None].  WeChat:
    the token request is answered by an error document, which has no
    ['access_token'].  None of them stores a ticket. *)
Theorem OAuthView_get_raises :
  let request provider :=
    oauth_request [("v", provider ++ "," ++ app); ("code", "abc")] in
  callback urlopen_down (request "github") anonymous = (Raise TypeError, anonymous) /\
  callback urlopen_down (request "qq") anonymous = (Raise AttributeError, anonymous) /\
  callback urlopen_wechat_error (request "wechat") anonymous = (Raise KeyError, anonymous).
Proof.
  repeat split.
Qed.

End OAuthRuns.

(** * Further properties of the views *)

(** ** Python string operations *)

Module PyStrFacts.

Import PyStr.

Lemma length_app (a b : string) : String.length (a ++ b) = String.length a + String.length b.
Proof. induction a as [|x a IH]; simpl; [reflexivity | now rewrite IH]. Qed.

Lemma app_nil_r (a : string) : a ++ "" = a.
Proof. induction a as [|x a IH]; simpl; [reflexivity | now rewrite IH]. Qed.

Lemma count_app (c : ascii) (a b : string) : count c (a ++ b) = count c a + count c b.
Proof. induction a as [|x a IH]; simpl; [reflexivity | rewrite IH; lia]. Qed.

Lemma prefix_app (p r : string) : String.prefix p (p ++ r) = true.
Proof.
  induction p as [|x p IH]; simpl; [now destruct r|].
  destruct (ascii_dec x x) as [_|Hx]; [exact IH | now elim Hx].
Qed.

Lemma prefix_inv (p s : string) : String.prefix p s = true -> exists r, s = p ++ r.
Proof.
  revert s. induction p as [|x p IH]; intros s H; simpl in *.
  - exists s. reflexivity.
  - destruct s as [|y s]; [discriminate H|]. simpl in H.
    destruct (ascii_dec x y) as [->|_]; [|discriminate H].
    destruct (IH s H) as [r ->]. exists r. reflexivity.
Qed.

Lemma rev_app (a b : string) : rev (a ++ b) = rev b ++ rev a.
Proof.
  induction a as [|x a IH]; simpl; [now rewrite app_nil_r|].
  rewrite IH. apply append_assoc.
Qed.

Lemma rev_involutive (a : string) : rev (rev a) = a.
Proof.
  induction a as [|x a IH]; simpl; [reflexivity|].
  rewrite rev_app, IH. reflexivity.
Qed.

Lemma endswith_app (p q : string) : endswith (p ++ q) q = true.
Proof. unfold endswith. rewrite rev_app. apply prefix_app. Qed.

Lemma endswith_inv (s q : string) : endswith s q = true -> exists p, s = p ++ q.
Proof.
  unfold endswith. intros H. destruct (prefix_inv _ _ H) as [r Hr].
  exists (rev r). rewrite <- (rev_involutive s), Hr, rev_app, rev_involutive.
  reflexivity.
Qed.

Lemma substring_0_app (p q : string) : String.substring 0 (String.length p) (p ++ q) = p.
Proof.
  induction p as [|x p IH]; simpl; [now destruct q | now rewrite IH].
Qed.

Lemma substring_skip (p s : string) (n : nat) :
  String.substring (String.length p) n (p ++ s) = String.substring 0 n s.
Proof. induction p as [|x p IH]; simpl; [reflexivity | exact IH]. Qed.

Lemma drop_last_app (p q : string) : drop_last (String.length q) (p ++ q) = p.
Proof.
  unfold drop_last. rewrite length_app.
  replace (String.length p + String.length q - String.length q) with (String.length p) by lia.
  apply substring_0_app.
Qed.

Lemma slice_app (p body q : string) :
  slice (String.length p) (String.length q) (p ++ body ++ q) = body.
Proof.
  unfold slice. rewrite !length_app.
  replace (String.length p + (String.length body + String.length q)
           - String.length q - String.length p) with (String.length body) by lia.
  rewrite substring_skip. apply substring_0_app.
Qed.

Lemma split_not_nil (c : ascii) (s : string) : split c s <> [].
Proof.
  induction s as [|x s IH]; simpl; [discriminate|].
  destruct (Ascii.eqb x c); [discriminate|].
  destruct (split c s); [now elim IH | discriminate].
Qed.

Lemma split_length (c : ascii) (s : string) : List.length (split c s) = S (count c s).
Proof.
  induction s as [|x s IH]; simpl; [reflexivity|].
  destruct (Ascii.eqb x c); simpl; [now rewrite IH|].
  destruct (split c s) as [|y l]; simpl in *; [discriminate | exact IH].
Qed.

Lemma split_without (c : ascii) (s : string) : count c s = 0 -> split c s = [s].
Proof.
  induction s as [|x s IH]; simpl; [reflexivity|].
  destruct (Ascii.eqb x c); [discriminate|]. simpl. intros H. now rewrite (IH H).
Qed.

Lemma split_app (c : ascii) (a b : string) :
  count c a = 0 -> split c (a ++ String c b) = a :: split c b.
Proof.
  induction a as [|x a IH]; simpl.
  - intros _. now rewrite Ascii.eqb_refl.
  - destruct (Ascii.eqb x c); [discriminate|]. simpl. intros H. now rewrite (IH H).
Qed.

Lemma split_one_inv (c : ascii) (s b : string) :
  split c s = [b] -> s = b /\ count c b = 0.
Proof.
  intros H. assert (Hc : count c s = 0).
  { pose proof (split_length c s) as Hl. rewrite H in Hl. simpl in Hl. lia. }
  rewrite (split_without c s Hc) in H. injection H as <-. now split.
Qed.

Lemma split_two_inv (c : ascii) (s a b : string) :
  split c s = [a; b] -> s = a ++ String c b /\ count c a = 0 /\ count c b = 0.
Proof.
  revert a. induction s as [|x s IH]; intros a H; simpl in H; [discriminate H|].
  destruct (Ascii.eqb x c) eqn:Hx.
  - apply Ascii.eqb_eq in Hx. subst x. injection H as <- H.
    destruct (split_one_inv c s b H) as [-> Hb]. now repeat split.
  - destruct (split c s) as [|y l] eqn:Hs; [discriminate H|].
    injection H as <- ->. destruct (IH y eq_refl) as (-> & Hy & Hb).
    repeat split; simpl; [now rewrite Hx | exact Hb].
Qed.

Lemma count_two (c : ascii) (a b : string) :
  count c a = 0 -> count c b = 0 -> count c (a ++ String c b) = 1.
Proof.
  intros Ha Hb. rewrite count_app. simpl. rewrite Ascii.eqb_refl. lia.
Qed.

End PyStrFacts.

(** ** The account store *)

Section AccountFacts.

Lemma User_get_some (name : string) (us : list User) (u : User) :
  User_get name us = Some u -> In u us /\ username u = name.
Proof.
  unfold User_get. intros H. destruct (find_some _ _ H) as [Hin Heq].
  split; [exact Hin | now apply String.eqb_eq].
Qed.

Lemma User_get_none (name : string) (us : list User) :
  User_get name us = None -> ~ In name (map username us).
Proof.
  unfold User_get. intros H Hin. apply in_map_iff in Hin as (u & Hname & Hu).
  pose proof (find_none _ _ H u Hu) as Hneq. simpl in Hneq.
  rewrite Hname, String.eqb_refl in Hneq. discriminate Hneq.
Qed.

Lemma User_get_app_new (name : string) (us : list User) (u : User) :
  User_get name us = None -> username u = name -> User_get name (us ++ [u]) = Some u.
Proof.
  unfold User_get. intros Hnone Hname. induction us as [|x us IH]; simpl in *.
  - now rewrite Hname, String.eqb_refl.
  - destruct (username x =? name); [discriminate Hnone | exact (IH Hnone)].
Qed.

Lemma authenticate_some (name pass : string) (us : list User) (u : User) :
  authenticate name pass us = Some u ->
  User_get name us = Some u /\ password u = pass.
Proof.
  unfold authenticate. destruct (User_get name us) as [u0|]; [|discriminate].
  destruct (password u0 =? pass) eqn:Hpass; [|discriminate].
  intros [= <-]. split; [reflexivity | now apply String.eqb_eq].
Qed.

(** What [__sync_user] does, case by case: a stored account is signed in when
    the password matches and left alone when it does not; an unknown name
    gets an account, which is signed in. *)
Lemma sync_user_cases (name pass : string) (mail : pyval) (w : World) :
  match User_get name (users w) with
  | Some u =>
      if password u =? pass
      then __sync_user name pass mail w = (Ok (Some u), snd (login u w))
      else __sync_user name pass mail w = (Ok None, w)
  | None =>
      let u := mkUser name pass mail in
      __sync_user name pass mail w =
        (Ok (Some u), snd (login u (set_users (users w ++ [u]) w)))
  end.
Proof.
  unfold __sync_user. destruct (User_get name (users w)) as [u|] eqn:Hget.
  - unfold authenticate. rewrite Hget. destruct (password u =? pass); reflexivity.
  - simpl. unfold authenticate.
    rewrite (User_get_app_new name (users w) (mkUser name pass mail) Hget eq_refl).
    simpl. rewrite String.eqb_refl. reflexivity.
Qed.

End AccountFacts.

(** ** __sync_user *)

Section SyncUserProps.

(** X1: An account stored under the name with another password is not signed in:
    [__sync_user] returns [None] and every store is as it was. *)
Theorem sync_user_wrong_password (name pass : string) (mail : pyval) (w : World) (u : User) :
  User_get name (users w) = Some u ->
  password u <> pass ->
  __sync_user name pass mail w = (Ok None, w).
Proof.
  intros Hget Hpass. pose proof (sync_user_cases name pass mail w) as H.
  rewrite Hget in H. destruct (password u =? pass) eqn:Heq; [|exact H].
  apply String.eqb_eq in Heq. contradiction.
Qed.

Lemma sync_user_wrong_password_witness :
  __sync_user "alice" "s3cr3t" VNone Deployment.anonymous = (Ok None, Deployment.anonymous).
Proof.
  apply (sync_user_wrong_password "alice" "s3cr3t" VNone Deployment.anonymous
                                  Deployment.alice);
    [reflexivity | discriminate].
Defined.

(** X2: When [__sync_user] returns a user, that user bears the name and the
    password asked for, is stored, and owns the session; the accounts stored
    before are all kept, in order, with at most this one added under a name
    that was free; tickets and messages are untouched. *)
Theorem sync_user_signed_in (name pass : string) (mail : pyval) (w w' : World) (u : User) :
  __sync_user name pass mail w = (Ok (Some u), w') ->
  username u = name /\ password u = pass /\
  In u (users w') /\
  auth_user (session w') = Some u /\
  (users w' = users w \/
   users w' = (users w ++ [u])%list /\ ~ In name (map username (users w))) /\
  tickets w' = tickets w /\ messages w' = messages w.
Proof.
  intros Hrun. pose proof (sync_user_cases name pass mail w) as H.
  destruct (User_get name (users w)) as [u0|] eqn:Hget.
  - destruct (password u0 =? pass) eqn:Hpass; rewrite Hrun in H; [|discriminate H].
    injection H as -> ->. destruct (User_get_some _ _ _ Hget) as [Hin Hname].
    apply String.eqb_eq in Hpass. simpl. repeat split; auto.
  - simpl in H. rewrite Hrun in H. injection H as -> ->. simpl.
    repeat split; auto.
    + apply in_or_app. right. now left.
    + right. split; [reflexivity | now apply User_get_none].
Qed.

Lemma sync_user_signed_in_witness :
  let u := mkUser "octocat_github" "s3cr3t" VNone in
  let w' := mkWorld [Deployment.alice; u] [] (mkSession (Some u) false) [] in
  username u = "octocat_github" /\ password u = "s3cr3t" /\
  In u (users w') /\
  auth_user (session w') = Some u /\
  (users w' = users Deployment.anonymous \/
   users w' = (users Deployment.anonymous ++ [u])%list /\
   ~ In "octocat_github" (map username (users Deployment.anonymous))) /\
  tickets w' = tickets Deployment.anonymous /\ messages w' = messages Deployment.anonymous.
Proof.
  intros u w'.
  apply (sync_user_signed_in "octocat_github" "s3cr3t" VNone Deployment.anonymous w' u).
  reflexivity.
Defined.

(** X3: Syncing the same account a second time returns what the first time
    returned and changes nothing any more. *)
Theorem sync_user_idempotent (name pass : string) (mail : pyval) (w : World) :
  let first := __sync_user name pass mail w in
  __sync_user name pass mail (snd first) = (fst first, snd first).
Proof.
  pose proof (sync_user_cases name pass mail w) as H.
  destruct (User_get name (users w)) as [u|] eqn:Hget.
  - destruct (password u =? pass) eqn:Hpass; rewrite H; simpl.
    + pose proof (sync_user_cases name pass mail (snd (login u w))) as H2.
      simpl in H2. rewrite Hget, Hpass in H2. rewrite H2.
      destruct (User_get_some _ _ _ Hget) as [_ Hname].
      unfold login. simpl. rewrite String.eqb_refl. reflexivity.
    + pose proof (sync_user_cases name pass mail w) as H2.
      rewrite Hget, Hpass in H2. exact H2.
  - simpl in H. rewrite H. simpl.
    pose proof (sync_user_cases name pass mail
                  (snd (login (mkUser name pass mail)
                              (set_users (users w ++ [mkUser name pass mail]) w)))) as H2.
    simpl in H2.
    rewrite (User_get_app_new name (users w) (mkUser name pass mail) Hget eq_refl) in H2.
    simpl in H2. rewrite String.eqb_refl in H2. rewrite H2.
    unfold login. simpl. rewrite String.eqb_refl. reflexivity.
Qed.

End SyncUserProps.

(** ** OAuthView: the whole effect of a callback *)

Section CallbackProps.

Variable settings : string -> option string.
Variable new_ticket : list ServiceTicket -> string.
Variable is_allowed : string -> bool.
Variable urlopen : string -> option string.
Variable urlopen_post : string -> list (string * pyval) -> option string.
Variable json_loads : string -> option pyval.
Variable get_initial : string -> string.

Local Abbreviation post := (callback_post settings new_ticket is_allowed).
Local Abbreviation secret_key := (getattr_default settings "SECRET_KEY" "").

(** [login] on the way to [synced]. *)
Lemma login_session (u : User) (w : World) :
  login u w =
    (Ok tt,
     set_session
       (mkSession (Some u)
          (match auth_user (session w) with
           | Some v => if username v =? username u then warn (session w) else false
           | None => warn (session w)
           end)) w).
Proof.
  unfold login. destruct (auth_user (session w)) as [v|]; reflexivity.
Qed.

(** [sync_user_cases] with the world spelled out. *)
Lemma sync_user_synced (name pass : string) (mail : pyval) (w : World) :
  __sync_user name pass mail w = (Ok None, w) /\
  (exists u, User_get name (users w) = Some u /\ password u <> pass) \/
  exists u,
    __sync_user name pass mail w = (Ok (Some u), synced u w) /\
    username u = name /\ password u = pass /\ In u (users (synced u w)).
Proof.
  pose proof (sync_user_cases name pass mail w) as H.
  destruct (User_get name (users w)) as [u|] eqn:Hget.
  - destruct (User_get_some _ _ _ Hget) as [Hin Hname].
    destruct (password u =? pass) eqn:Hpass.
    + right. exists u. apply String.eqb_eq in Hpass. rewrite H, login_session.
      unfold synced. rewrite Hname, Hget. repeat split; assumption.
    + left. split; [exact H|]. exists u. split; [reflexivity|].
      intros Heq. rewrite Heq, String.eqb_refl in Hpass. discriminate Hpass.
  - right. exists (mkUser name pass mail). cbv zeta in H. rewrite H, login_session.
    unfold synced. simpl. rewrite Hget. repeat split.
    apply in_or_app. right. now left.
Qed.

Lemma post_text (service tag content content_type : string) (w : World) :
  post service tag w (ret (HttpResponse content content_type) w).
Proof.
  left. split; [reflexivity|]. simpl. intros to params H. discriminate H.
Qed.

Lemma post_lift {A} (service tag : string) (r : res A) (k : A -> M Response) (w : World) :
  (forall a, post service tag w (k a w)) ->
  post service tag w (bind (lift r) k w).
Proof.
  intros Hk. unfold bind, lift. destruct r as [a|e]; [apply Hk|].
  left. split; [reflexivity|]. simpl. intros to params H. discriminate H.
Qed.

(** The end of a handler: sync, then ticket or failure text. *)
Lemma sync_ticket_run (name : string) (mail : pyval) (service content : string) (w : World) :
  let run := bind (__sync_user name secret_key mail)
                  (ticket_or new_ticket is_allowed (HttpResponse content "text/plain") service)
                  w in
  run = (Ok (HttpResponse content "text/plain"), w) /\
  (exists u, User_get name (users w) = Some u /\ password u <> secret_key) \/
  exists u,
    username u = name /\ password u = secret_key /\ In u (users (synced u w)) /\
    run = if is_allowed service
          then (Ok (redirect service [("ticket", new_ticket (tickets w))]),
                federated new_ticket service u w)
          else (Raise Rejected, synced u w).
Proof.
  intros run. subst run. unfold bind.
  destruct (sync_user_synced name secret_key mail w)
    as [[Hnone Hwhy] | (u & Hsome & Hname & Hpass & Hin)].
  - left. rewrite Hnone. split; [reflexivity | exact Hwhy].
  - right. exists u. rewrite Hsome. repeat split; try assumption.
    simpl. unfold bind, create_ticket. destruct (is_allowed service); reflexivity.
Qed.

Lemma post_sync (service tag content name : string) (mail : pyval) (w : World) :
  post service tag w
    (bind (__sync_user (name ++ tag) secret_key mail)
          (ticket_or new_ticket is_allowed (HttpResponse content "text/plain") service) w).
Proof.
  destruct (sync_ticket_run (name ++ tag) mail service content w)
    as [[Hrun _] | (u & Hname & Hpass & Hin & Hrun)]; rewrite Hrun.
  - apply post_text.
  - right. exists u. repeat split; try assumption.
    + destruct (is_allowed service); [left | right]; split; reflexivity.
    + rewrite Hname. apply PyStrFacts.endswith_app.
Qed.

Ltac post_step :=
  match goal with
  | |- callback_post _ _ _ _ _ _ (bind (lift _) _ _) => apply post_lift; intros ?
  | |- callback_post _ _ _ _ _ _ (bind (__sync_user (_ ++ _) _ _) _ _) => apply post_sync
  | |- callback_post _ _ _ _ _ _ (ret (HttpResponse _ _) _) => apply post_text
  | |- callback_post _ _ _ _ _ _ ((if ?b then _ else _) _) => destruct b
  end.

Lemma do_github_post code service w :
  post service "_github" w
    (do_github settings new_ticket is_allowed urlopen urlopen_post json_loads code service w).
Proof. unfold do_github. repeat post_step. Qed.

Lemma do_qq_post code host service w :
  post service "_qq" w
    (do_qq settings new_ticket is_allowed urlopen urlopen_post json_loads get_initial
           code host service w).
Proof. unfold do_qq. repeat post_step. Qed.

Lemma do_weibo_post code host service w :
  post service "_weibo" w
    (do_weibo settings new_ticket is_allowed urlopen urlopen_post json_loads
              code host service w).
Proof. unfold do_weibo. repeat post_step. Qed.

Lemma do_wechat_post code host service w :
  post service "_wechat" w
    (do_wechat settings new_ticket is_allowed urlopen json_loads get_initial
               code host service w).
Proof. unfold do_wechat. repeat post_step. Qed.

End CallbackProps.

Section CallbackTheorems.

Variable settings : string -> option string.
Variable new_ticket : list ServiceTicket -> string.
Variable is_allowed : string -> bool.
Variable urlopen : string -> option string.
Variable urlopen_post : string -> list (string * pyval) -> option string.
Variable json_loads : string -> option pyval.
Variable get_initial : string -> string.

Local Abbreviation callback :=
  (OAuthView_get settings new_ticket is_allowed urlopen urlopen_post json_loads get_initial).
Local Abbreviation fallback :=
  (HttpResponse "请从web应用（例如https://bugs.isoft-linux.org/）登录入口进行CAS" "text/plain").

(** The callback as a whole: nothing changed and no redirect, or [v] named
    one of the four providers and a service, and the handler's
    [callback_post] holds. *)
Lemma OAuthView_get_post (request : Request) (w : World) :
  (snd (callback request w) = w /\
   forall to params, fst (callback request w) <> Ok (redirect to params)) \/
  (exists provider service,
     QueryDict_get (GET request) "v" = Some (provider ++ "," ++ service) /\
     In provider providers /\
     callback_post settings new_ticket is_allowed service ("_" ++ provider) w
                   (callback request w)).
Proof.
  assert (Htext : forall content, let out := ret (HttpResponse content "text/plain") w in
                    snd out = w /\ forall to params, fst out <> Ok (redirect to params)).
  { intros content. simpl. split; [reflexivity|]. intros to params H. discriminate H. }
  unfold OAuthView_get.
  destruct (QueryDict_get (GET request) "v") as [v|]; [|left; apply Htext].
  destruct (PyStr.nonempty v); [|left; apply Htext].
  destruct (PyStr.split "," v) as [|provider [|service [|x l]]] eqn:Hsplit;
    try (left; apply Htext).
  destruct (PyStrFacts.split_two_inv _ _ _ _ Hsplit) as (-> & _ & _).
  destruct (provider =? "github") eqn:H1;
    [| destruct (provider =? "qq") eqn:H2;
       [| destruct (provider =? "weibo") eqn:H3;
          [| destruct (provider =? "wechat") eqn:H4; [| left; apply Htext]]]];
    match goal with
    | H : (provider =? _) = true |- _ => apply String.eqb_eq in H; subst provider
    end;
    right; eexists; exists service; (split; [reflexivity|]); unfold providers; simpl.
  - split; [tauto | apply do_github_post].
  - split; [tauto | apply post_lift; intros; apply do_qq_post].
  - split; [tauto | apply post_lift; intros; apply do_weibo_post].
  - split; [tauto | apply post_lift; intros; apply do_wechat_post].
Qed.

(** X4: A callback that does not end in a redirect, be it with a failure
    text or with an exception, has stored no ticket, and it has changed
    nothing at all unless the exception is the rejection of the issuance: in
    that one case, only reached for a service that is not allowed, the account
    is synced and signed in already. *)
Theorem OAuthView_get_all_or_nothing (request : Request) (w : World) :
  (exists to params, fst (callback request w) = Ok (redirect to params)) \/
  snd (callback request w) = w \/
  (exists provider service u,
     QueryDict_get (GET request) "v" = Some (provider ++ "," ++ service) /\
     is_allowed service = false /\
     callback request w = (Raise Rejected, synced u w) /\
     tickets (synced u w) = tickets w).
Proof.
  destruct (OAuthView_get_post request w) as [[Hsame _] | (provider & service & Hv & _ & H)].
  - right. left. exact Hsame.
  - destruct H as [[Hsame _] | (u & [[Hout Ha] | [Hout Ha]] & _)].
    + right. left. exact Hsame.
    + left. rewrite Hout. simpl. eauto.
    + right. right. exists provider, service, u. repeat split; assumption.
Qed.

(** X5: A callback that redirects was asked for one of the four providers and
    redirects to the service named in [v], with the token of the one ticket
    it has stored; the ticket is for that service and for the user who now
    owns the session; that user is a stored account whose name ends in an
    underscore and the provider's tag and whose password is SECRET_KEY. *)
Theorem OAuthView_get_redirect (request : Request) (w : World) (to : string)
    (params : list (string * string)) :
  fst (callback request w) = Ok (redirect to params) ->
  exists provider u,
    QueryDict_get (GET request) "v" = Some (provider ++ "," ++ to) /\
    In provider providers /\
    params = [("ticket", new_ticket (tickets w))] /\
    tickets (snd (callback request w)) = transparent_ticket new_ticket to u w :: tickets w /\
    auth_user (session (snd (callback request w))) = Some u /\
    In u (users (snd (callback request w))) /\
    PyStr.endswith (username u) ("_" ++ provider) = true /\
    password u = getattr_default settings "SECRET_KEY" "".
Proof.
  intros Hredirect.
  destruct (OAuthView_get_post request w) as [[_ Hno] | (provider & service & Hv & Hp & H)];
    [now elim (Hno to params)|].
  destruct H as [[_ Hno] | (u & [[Hout _] | [Hout _]] & Htag & Hpass & Hin)];
    [now elim (Hno to params) | | rewrite Hout in Hredirect; discriminate Hredirect].
  rewrite Hout in Hredirect. simpl in Hredirect. injection Hredirect as <- <-.
  exists provider, u. rewrite Hout. simpl fst; simpl snd.
  repeat split; assumption.
Qed.

(** X6: A callback keeps every stored account as it is and in place, adds at most
    one, and keeps user names unique when they were. *)
Theorem OAuthView_get_accounts (request : Request) (w : World) :
  (exists added, users (snd (callback request w)) = (users w ++ added)%list /\
                 List.length added <= 1) /\
  (NoDup (map username (users w)) ->
   NoDup (map username (users (snd (callback request w))))).
Proof.
  assert (Hsame : forall w', users w' = users w ->
            (exists added, users w' = (users w ++ added)%list /\ List.length added <= 1) /\
            (NoDup (map username (users w)) -> NoDup (map username (users w')))).
  { intros w' ->. split; [|tauto]. exists []. rewrite app_nil_r. simpl. split; [reflexivity | lia]. }
  assert (Hsynced : forall u w', users w' = users (synced u w) ->
            (exists added, users w' = (users w ++ added)%list /\ List.length added <= 1) /\
            (NoDup (map username (users w)) -> NoDup (map username (users w')))).
  { intros u w' ->. unfold synced. simpl.
    destruct (User_get (username u) (users w)) eqn:Hget; [now apply (Hsame w)|].
    split; [exists [u]; simpl; split; [reflexivity | lia]|].
    intros Hnodup. rewrite map_app. simpl.
    apply (Permutation_NoDup (l := username u :: map username (users w))).
    + apply Permutation_cons_append.
    + constructor; [now apply User_get_none | exact Hnodup]. }
  destruct (OAuthView_get_post request w) as [[H _] | (provider & service & _ & _ & H)];
    [apply Hsame; now rewrite H|].
  destruct H as [[H _] | (u & [[Hout _] | [Hout _]] & _)];
    [apply Hsame; now rewrite H | |]; rewrite Hout; now apply (Hsynced u).
Qed.

(** X7: The [v] parameter round-trips: written as the tag, a comma and a
    service that has no comma in it, it reaches the handler of that provider
    with exactly that service and the request's [code]; the handlers of qq,
    weibo and wechat are also handed the Host header of the request, and a
    request without one raises KeyError before they run. *)
Theorem OAuthView_get_dispatch (request : Request) (service : string) :
  PyStr.count "," service = 0 ->
  let v := QueryDict_get (GET request) "v" in
  let code := QueryDict_get (GET request) "code" in
  (v = Some ("github," ++ service) ->
   callback request = do_github settings new_ticket is_allowed urlopen urlopen_post
                                json_loads code service) /\
  (forall host, http_host request = Some host ->
     (v = Some ("qq," ++ service) ->
      callback request = do_qq settings new_ticket is_allowed urlopen urlopen_post
                               json_loads get_initial code host service) /\
     (v = Some ("weibo," ++ service) ->
      callback request = do_weibo settings new_ticket is_allowed urlopen urlopen_post
                                  json_loads code host service) /\
     (v = Some ("wechat," ++ service) ->
      callback request = do_wechat settings new_ticket is_allowed urlopen json_loads
                                   get_initial code host service)) /\
  (http_host request = None ->
   v = Some ("qq," ++ service) \/ v = Some ("weibo," ++ service)
   \/ v = Some ("wechat," ++ service) ->
   forall w, callback request w = (Raise KeyError, w)).
Proof.
  intros Hservice v code. subst v.
  assert (Hsplit : forall tag, PyStr.count "," tag = 0 ->
            PyStr.split "," (tag ++ String "," service) = [tag; service]).
  { intros tag Htag. now rewrite (PyStrFacts.split_app "," tag service Htag),
                                 (PyStrFacts.split_without _ _ Hservice). }
  pose proof (Hsplit "github" eq_refl) as Hgithub.
  pose proof (Hsplit "qq" eq_refl) as Hqq.
  pose proof (Hsplit "weibo" eq_refl) as Hweibo.
  pose proof (Hsplit "wechat" eq_refl) as Hwechat.
  split; [|split].
  - intros Hv. unfold OAuthView_get. rewrite Hv. simpl PyStr.nonempty. cbv iota.
    change ("github," ++ service) with ("github" ++ String "," service).
    rewrite Hgithub. reflexivity.
  - intros host Hhost. repeat split; intros Hv; unfold OAuthView_get, META_HTTP_HOST;
      rewrite Hv, Hhost; simpl PyStr.nonempty; cbv iota.
    + change ("qq," ++ service) with ("qq" ++ String "," service).
      rewrite Hqq. reflexivity.
    + change ("weibo," ++ service) with ("weibo" ++ String "," service).
      rewrite Hweibo. reflexivity.
    + change ("wechat," ++ service) with ("wechat" ++ String "," service).
      rewrite Hwechat. reflexivity.
  - intros Hhost [Hv | [Hv | Hv]] w; unfold OAuthView_get, META_HTTP_HOST;
      rewrite Hv, Hhost; simpl PyStr.nonempty; cbv iota.
    + change ("qq," ++ service) with ("qq" ++ String "," service).
      rewrite Hqq. reflexivity.
    + change ("weibo," ++ service) with ("weibo" ++ String "," service).
      rewrite Hweibo. reflexivity.
    + change ("wechat," ++ service) with ("wechat" ++ String "," service).
      rewrite Hwechat. reflexivity.
Qed.

(** X8: A [v] that is missing, or does not hold exactly one comma, or names none
    of the four providers before it, is answered by the fallback text; no
    provider is contacted and nothing changes.  A service with a comma in it
    is such a case. *)
Theorem OAuthView_get_fallback (request : Request) (w : World) :
  match QueryDict_get (GET request) "v" with
  | None => True
  | Some v =>
      PyStr.count "," v <> 1 \/
      forall provider, In provider providers -> PyStr.startswith v (provider ++ ",") = false
  end ->
  callback request w = (Ok fallback, w).
Proof.
  unfold OAuthView_get.
  destruct (QueryDict_get (GET request) "v") as [v|]; [|reflexivity].
  intros Hv. destruct (PyStr.nonempty v); [|reflexivity].
  destruct (PyStr.split "," v) as [|provider [|service [|x l]]] eqn:Hsplit; try reflexivity.
  pose proof (PyStrFacts.split_length "," v) as Hlen. rewrite Hsplit in Hlen. simpl in Hlen.
  destruct Hv as [Hcount | Hnone]; [lia|].
  destruct (PyStrFacts.split_two_inv _ _ _ _ Hsplit) as (-> & _ & _).
  assert (Hnot : forall p, In p providers -> (provider =? p) = false).
  { intros p Hp. destruct (provider =? p) eqn:Heq; [|reflexivity].
    apply String.eqb_eq in Heq. subst p. specialize (Hnone provider Hp).
    unfold PyStr.startswith in Hnone.
    change (provider ++ String "," service) with (provider ++ "," ++ service) in Hnone.
    rewrite <- append_assoc, PyStrFacts.prefix_app in Hnone. discriminate Hnone. }
  unfold providers in Hnot.
  rewrite !Hnot by (simpl; tauto). reflexivity.
Qed.

End CallbackTheorems.

(** ** LoginView: the whole effect of a GET *)

Section LoginGetProps.

Variable settings : string -> option string.
Variable to_bool : option string -> bool.
Variable new_ticket : list ServiceTicket -> string.
Variable is_allowed : string -> bool.

Local Abbreviation get := (LoginView_get settings to_bool new_ticket is_allowed).
Local Abbreviation setup := (LoginView_setup settings).
Local Abbreviation flag := (flag to_bool).
Local Abbreviation cases := (LoginView_get_cases settings to_bool new_ticket is_allowed).
Local Abbreviation without_host :=
  (LoginView_get_without_host settings to_bool new_ticket is_allowed).

(** X9: A GET /login stores a ticket exactly when the request has a Host
    header, [renew] is off, a user is signed in and the service (given or
    default) is not empty and is allowed; the ticket is then for that service
    and user, and not primary.  In every other case, an exception included,
    the tickets are as they were. *)
Theorem LoginView_get_tickets (request : Request) (w : World) :
  tickets (snd (get request w)) =
    match http_host request, auth_user (session w) with
    | Some host, Some u =>
        let service := lv_service (setup request host) in
        if negb (flag request "renew") && PyStr.nonempty service && is_allowed service
        then mkST (new_ticket (tickets w)) service u false false :: tickets w
        else tickets w
    | _, _ => tickets w
    end.
Proof.
  destruct (http_host request) as [host|] eqn:Hhost;
    [|now rewrite (without_host request w Hhost)].
  rewrite (cases request host w Hhost).
  generalize (setup request host). intros self.
  cbv zeta. rewrite !FormView_render_run.
  destruct (flag request "renew"); simpl.
  { destruct (settings "MAMA_CAS_OAUTH_WECHAT_APP_ID"), (auth_user (session w)); reflexivity. }
  destruct (auth_user (session w)) as [u|].
  - destruct (PyStr.nonempty (lv_service self)); simpl.
    + rewrite issue_and_redirect_run. destruct (is_allowed (lv_service self)); reflexivity.
    + rewrite FormView_render_run.
      destruct (settings "MAMA_CAS_OAUTH_WECHAT_APP_ID"); reflexivity.
  - destruct (flag request "gateway" && PyStr.nonempty (lv_service self));
      destruct (settings "MAMA_CAS_OAUTH_WECHAT_APP_ID"); reflexivity.
Qed.

(** X10: A GET /login never touches the accounts or the session, whatever it
    answers or raises, and it leaves a message exactly on the way to the
    status page: a Host header, [renew] off, a user signed in, no service. *)
Theorem LoginView_get_frame (request : Request) (w : World) :
  users (snd (get request w)) = users w /\
  session (snd (get request w)) = session w /\
  messages (snd (get request w)) =
    match http_host request, auth_user (session w) with
    | Some host, Some u =>
        if negb (flag request "renew")
           && negb (PyStr.nonempty (lv_service (setup request host)))
        then (messages w ++ [("You are logged in as " ++ username u)%string])%list
        else messages w
    | _, _ => messages w
    end.
Proof.
  destruct (http_host request) as [host|] eqn:Hhost;
    [|now rewrite (without_host request w Hhost)].
  rewrite (cases request host w Hhost).
  generalize (setup request host). intros self.
  rewrite !FormView_render_run.
  destruct (flag request "renew"); simpl.
  { destruct (settings "MAMA_CAS_OAUTH_WECHAT_APP_ID"), (auth_user (session w));
      now repeat split. }
  destruct (auth_user (session w)) as [u|].
  - destruct (PyStr.nonempty (lv_service self)); simpl.
    + rewrite issue_and_redirect_run. destruct (is_allowed (lv_service self)); now repeat split.
    + rewrite FormView_render_run.
      destruct (settings "MAMA_CAS_OAUTH_WECHAT_APP_ID"); now repeat split.
  - destruct (flag request "gateway" && PyStr.nonempty (lv_service self));
      destruct (settings "MAMA_CAS_OAUTH_WECHAT_APP_ID"); now repeat split.
Qed.

(** X11: The [gateway] flag matters to anonymous clients asking for a service
    only: with a user signed in, or with no service, two requests that agree
    on everything but [gateway] get the same answer. *)
Theorem LoginView_get_gateway_irrelevant (r1 r2 : Request) (w : World) :
  http_host r1 = http_host r2 ->
  (forall host, setup r1 host = setup r2 host) ->
  flag r1 "renew" = flag r2 "renew" ->
  auth_user (session w) <> None \/ (forall host, lv_service (setup r1 host) = "") ->
  get r1 w = get r2 w.
Proof.
  intros Hhost Hsetup Hrenew Hcase.
  destruct (http_host r1) as [host|] eqn:H1.
  - symmetry in Hhost.
    rewrite (cases r1 host w H1), (cases r2 host w Hhost), <- Hsetup, <- Hrenew.
    destruct (flag r1 "renew"); [reflexivity|].
    destruct (auth_user (session w)) as [u|]; [reflexivity|].
    destruct Hcase as [Hcase | Hcase]; [now elim Hcase|].
    rewrite Hcase. simpl. rewrite !andb_false_r. reflexivity.
  - symmetry in Hhost. now rewrite (without_host r1 w H1), (without_host r2 w Hhost).
Qed.

(** X12: The path the view keeps: a request path ending in [login] loses these
    five characters, so that the authorization links point at the sibling
    [oauth] of the login page; any other path is kept whole. *)
Theorem LoginView_setup_path (request : Request) (host : string) :
  (forall prefix, path request = prefix ++ "login" ->
                  lv_path (setup request host) = prefix) /\
  (PyStr.endswith (path request) "login" = false ->
   lv_path (setup request host) = path request) /\
  (PyStr.endswith (path request) "login" = true ->
   lv_path (setup request host) ++ "login" = path request).
Proof.
  unfold LoginView_setup. simpl. repeat split.
  - intros prefix ->. rewrite PyStrFacts.endswith_app.
    apply (PyStrFacts.drop_last_app prefix "login").
  - intros ->. reflexivity.
  - intros H. rewrite H. destruct (PyStrFacts.endswith_inv _ _ H) as [p ->].
    now rewrite (PyStrFacts.drop_last_app p "login"
                 : PyStr.drop_last 5 (p ++ "login") = p).
Qed.

End LoginGetProps.

(** ** LoginView: credentials, then the next request *)

Section FormValidThenGet.

Variable settings : string -> option string.
Variable to_bool : option string -> bool.
Variable new_ticket : list ServiceTicket -> string.
Variable is_allowed : string -> bool.

Local Abbreviation get := (LoginView_get settings to_bool new_ticket is_allowed).
Local Abbreviation setup := (LoginView_setup settings).
Local Abbreviation flag := (flag to_bool).
Local Abbreviation form_valid := (LoginView_form_valid new_ticket is_allowed).

(** The stores [form_valid] leaves, but for the tickets. *)
Lemma form_valid_stores (request : Request) (form : LoginForm) (w : World) :
  let w' := snd (form_valid request form w) in
  users w' = users w /\ messages w' = messages w /\
  auth_user (session w') = Some (form_user form) /\
  warn (session w') = (form_warn form || warn (session (snd (login (form_user form) w)))).
Proof.
  unfold LoginView_form_valid, bind, login, ret, request_user, create_ticket.
  destruct (form_warn form); simpl;
    destruct (QueryDict_get (GET request) "service") as [service|]; simpl;
    try destruct (PyStr.nonempty service); simpl;
    try destruct (is_allowed service); simpl; now repeat split.
Qed.

(** X13: Whatever the query, an accepted credential form signs its user in,
    leaves accounts and messages alone, and stores at most one ticket, which
    is primary and belongs to that user. *)
Theorem LoginView_form_valid_frame (request : Request) (form : LoginForm) (w : World) :
  let w' := snd (form_valid request form w) in
  users w' = users w /\ messages w' = messages w /\
  auth_user (session w') = Some (form_user form) /\
  (tickets w' = tickets w \/
   exists st, tickets w' = st :: tickets w /\ st_primary st = true /\
              st_user st = form_user form /\
              QueryDict_get (GET request) "service" = Some (st_service st)).
Proof.
  destruct (form_valid_stores request form w) as (Hu & Hm & Ha & _).
  intros w'. repeat split; try assumption. subst w'.
  unfold LoginView_form_valid, bind, login, ret, request_user, create_ticket.
  destruct (form_warn form); simpl;
    destruct (QueryDict_get (GET request) "service") as [service|]; simpl;
    try destruct (PyStr.nonempty service); simpl;
    try destruct (is_allowed service); simpl; auto;
    right; eexists; repeat split.
Qed.

(** X15: Credentials accepted with the warn option, then a GET /login that
    has a Host header and no [renew], for a service that is not empty and is
    allowed: the second request stores a ticket that is not primary for the
    user who just signed in, and answers with the redirect to the warn
    step. *)
Theorem LoginView_warn_after_form_valid (posted request : Request) (form : LoginForm)
    (w : World) (host : string) :
  form_warn form = true ->
  http_host request = Some host ->
  flag request "renew" = false ->
  lv_service (setup request host) <> "" ->
  is_allowed (lv_service (setup request host)) = true ->
  let w1 := snd (form_valid posted form w) in
  let service := lv_service (setup request host) in
  let st := mkST (new_ticket (tickets w1)) service (form_user form) false false in
  get request w1 =
    (Ok (redirect "cas_warn" [("service", service); ("ticket", st_ticket st)]),
     set_tickets (st :: tickets w1) w1).
Proof.
  intros Hwarn Hhost Hrenew Hservice Hallowed w1 service st.
  destruct (form_valid_stores posted form w) as (_ & _ & Hauth & Hw).
  fold w1 in Hauth, Hw. rewrite Hwarn in Hw. simpl in Hw.
  rewrite (LoginView_get_transparent settings to_bool new_ticket is_allowed request host w1
             (form_user form) Hhost Hrenew Hauth Hservice).
  rewrite issue_and_redirect_run, Hallowed, Hw. reflexivity.
Qed.

(** X16: The login page cannot be built unless MAMA_CAS_OAUTH_WECHAT_APP_ID is
    configured: [get_context_data] raises AttributeError exactly then, every
    other setting it reads having a default. *)
Theorem LoginView_get_context_data_raises (self : LoginView) :
  (settings "MAMA_CAS_OAUTH_WECHAT_APP_ID" = None <->
   LoginView_get_context_data settings self = Raise AttributeError) /\
  (settings "MAMA_CAS_OAUTH_WECHAT_APP_ID" <> None <->
   exists data, LoginView_get_context_data settings self = Ok data /\
                map fst data = ["oauth_weibo_meta_content"; "oauth_qq_meta_content";
                                "oauth_github_url"; "oauth_qq_url"; "oauth_weibo_url";
                                "oauth_wechat_url"]).
Proof.
  unfold LoginView_get_context_data, getattr.
  destruct (settings "MAMA_CAS_OAUTH_WECHAT_APP_ID") as [v|]; split; split; intros H;
    try discriminate H; try reflexivity; try (now elim H).
  eexists. split; reflexivity.
Qed.

End FormValidThenGet.

(** ** ServiceValidateView and ProxyValidateView *)

Section ValidatorProps.

Variable to_bool : option string -> bool.
Variable validate_service_ticket :
  option string -> option string -> option string -> bool -> World -> Validation * World.
Variable validate_proxy_ticket :
  option string -> option string -> option string -> World ->
  (option ProxyTicket * option string * option (list string) * option ValidationError) * World.
Variable get_attributes : User -> string -> list (string * pyval).
Variable TICKET_PREFIX : string.

Local Abbreviation service_validate :=
  (ServiceValidateView_get_context_data to_bool validate_service_ticket get_attributes).
Local Abbreviation proxy_validate :=
  (ProxyValidateView_get_context_data to_bool validate_service_ticket validate_proxy_ticket
                                      get_attributes TICKET_PREFIX).

(** X17: On a ticket that is not empty and does not bear the proxy prefix,
    /proxyValidate validates exactly as /serviceValidate does, stores
    included; its context only has the [proxies] key besides, set to
    [None]. *)
Theorem ProxyValidateView_service_ticket (request : Request) (ticket : string) (w : World) :
  QueryDict_get (GET request) "ticket" = Some ticket ->
  ticket <> "" ->
  PyStr.startswith ticket TICKET_PREFIX = false ->
  let '(c, w') := service_validate request w in
  ctx_proxies c = None /\
  proxy_validate request w =
    (mkContext (ctx_ticket c) (ctx_pgt c) (Some None) (ctx_error c) (ctx_attributes c), w').
Proof.
  intros Hticket Hne Hprefix.
  unfold ServiceValidateView_get_context_data, ProxyValidateView_get_context_data.
  rewrite Hticket, Hprefix, (nonempty_true _ Hne). simpl.
  destruct (validate_service_ticket _ _ _ _ w) as [[[st pgt] error] w'].
  split; reflexivity.
Qed.

(** X18: On a ticket that is missing, empty or bears the proxy prefix,
    /proxyValidate never looks at [renew]: two requests that agree on
    service, ticket and pgtUrl get the same context. *)
Theorem ProxyValidateView_renew_ignored (r1 r2 : Request) (w : World) :
  QueryDict_get (GET r1) "service" = QueryDict_get (GET r2) "service" ->
  QueryDict_get (GET r1) "ticket" = QueryDict_get (GET r2) "ticket" ->
  QueryDict_get (GET r1) "pgtUrl" = QueryDict_get (GET r2) "pgtUrl" ->
  match QueryDict_get (GET r1) "ticket" with
  | Some ticket => ticket = "" \/ PyStr.startswith ticket TICKET_PREFIX = true
  | None => True
  end ->
  proxy_validate r1 w = proxy_validate r2 w.
Proof.
  intros Hs Ht Hp Hcase. unfold ProxyValidateView_get_context_data.
  rewrite <- Hs, <- Ht, <- Hp.
  destruct (QueryDict_get (GET r1) "ticket") as [ticket|]; [|reflexivity].
  destruct Hcase as [-> | ->]; [reflexivity|].
  rewrite orb_true_r. reflexivity.
Qed.

End ValidatorProps.

(** ** The provider handlers *)

Section QQParsing.

(** X19: The token QQ's form-encoded answer carries: when the answer begins with
    the [access_token] pair, [do_qq] extracts its value, whether other pairs
    follow or not. *)
Theorem qq_access_token_first (token rest : string) :
  PyStr.count "&" token = 0 ->
  PyStr.count "=" token = 0 ->
  qq_access_token ("access_token=" ++ token) = token /\
  qq_access_token ("access_token=" ++ token ++ "&" ++ rest) = token.
Proof.
  intros Hamp Heq.
  assert (Hpair : PyStr.count "&" ("access_token=" ++ token) = 0)
    by (rewrite PyStrFacts.count_app; simpl; exact Hamp).
  assert (Hvalue : nth 1 (PyStr.split "=" ("access_token=" ++ token)) "" = token).
  { change ("access_token=" ++ token) with ("access_token" ++ String "=" token).
    rewrite (PyStrFacts.split_app "=" "access_token" token eq_refl),
            (PyStrFacts.split_without _ _ Heq). reflexivity. }
  unfold qq_access_token. split.
  - rewrite (PyStrFacts.split_without _ _ Hpair).
    cbn [find]. unfold PyStr.startswith. rewrite PyStrFacts.prefix_app. exact Hvalue.
  - replace ("access_token=" ++ token ++ "&" ++ rest)
      with (("access_token=" ++ token) ++ String "&" rest)
      by (rewrite append_assoc; reflexivity).
    rewrite (PyStrFacts.split_app "&" _ rest Hpair).
    cbn [find]. unfold PyStr.startswith. rewrite PyStrFacts.prefix_app. exact Hvalue.
Qed.

(** X20: The loop of [do_qq] cannot raise: a pair it selects splits at [=] into
    at least two pieces, so that index 1 exists; and when no pair begins
    with [access_token=] the token is the empty string. *)
Theorem qq_access_token_index (result : string) :
  (forall token, PyStr.startswith token "access_token=" = true ->
                 2 <= List.length (PyStr.split "=" token)) /\
  (Forall (fun token => PyStr.startswith token "access_token=" = false)
          (PyStr.split "&" result) ->
   qq_access_token result = "").
Proof.
  split.
  - intros token H. destruct (PyStrFacts.prefix_inv _ _ H) as [r ->].
    rewrite PyStrFacts.split_length, PyStrFacts.count_app. simpl. lia.
  - intros H. unfold qq_access_token.
    induction (PyStr.split "&" result) as [|x l IH]; [reflexivity|].
    inversion H as [|? ? Hx Hl]; subst. cbn [find]. rewrite Hx. exact (IH Hl).
Qed.

End QQParsing.

Section HandlerProps.

Variable settings : string -> option string.
Variable new_ticket : list ServiceTicket -> string.
Variable is_allowed : string -> bool.
Variable urlopen : string -> option string.
Variable urlopen_post : string -> list (string * pyval) -> option string.
Variable json_loads : string -> option pyval.
Variable get_initial : string -> string.

Local Abbreviation http_get := (__http_get urlopen json_loads).
Local Abbreviation http_post := (__http_post urlopen_post json_loads).
Local Abbreviation secret_key := (getattr_default settings "SECRET_KEY" "").

Lemma assoc_truthy (k : string) (d : list (string * pyval)) (v : pyval) :
  Py.assoc k d = Some v -> Py.truthy (VDict d) = true.
Proof. destruct d; [discriminate | reflexivity]. Qed.

(** The end of every handler when the service is allowed and the account is
    free or bears the shared password. *)
Lemma sync_then_ticket (name : string) (mail : pyval) (service content : string)
    (w : World) :
  is_allowed service = true ->
  (forall u, User_get name (users w) = Some u -> password u = secret_key) ->
  exists u,
    username u = name /\ password u = secret_key /\
    signed_in_with_ticket new_ticket service u w
      (bind (__sync_user name secret_key mail)
            (ticket_or new_ticket is_allowed (HttpResponse content "text/plain") service) w).
Proof.
  intros Hallowed Hfree.
  destruct (sync_ticket_run settings new_ticket is_allowed name mail service content w)
    as [[_ (u & Hget & Hpass)] | (u & Hname & Hpass & Hin & Hrun)].
  - now elim Hpass; apply Hfree.
  - exists u. rewrite Hrun, Hallowed. unfold signed_in_with_ticket. simpl.
    repeat split; try assumption.
    destruct (User_get (username u) (users w)); [left | right]; reflexivity.
Qed.

(** X22: GitHub, when everything answers: a token document with a string
    [access_token], a profile with a string [login] and an [email], a
    service that is allowed, and the name [login_github] free or stored with
    the shared password.  The account of that name is signed in and owns the
    session, one ticket, not primary, is stored for it and the service, and
    the client is redirected to the service with its token. *)
Theorem do_github_success (code : option string) (service : string) (w : World)
    (token_doc profile : list (string * pyval)) (access_token name : string) (mail : pyval) :
  http_post "https://github.com/login/oauth/access_token" (github_token_data settings code)
    = VDict token_doc ->
  Py.assoc "access_token" token_doc = Some (VStr access_token) ->
  http_get ("https://api.github.com/user?access_token=" ++ access_token) = VDict profile ->
  Py.assoc "login" profile = Some (VStr name) ->
  Py.assoc "email" profile = Some mail ->
  is_allowed service = true ->
  (forall u, User_get (name ++ "_github") (users w) = Some u -> password u = secret_key) ->
  exists u,
    username u = name ++ "_github" /\ password u = secret_key /\
    signed_in_with_ticket new_ticket service u w
      (do_github settings new_ticket is_allowed urlopen urlopen_post json_loads
                 code service w).
Proof.
  intros Htoken Haccess Hprofile Hname Hmail Hallowed Hfree.
  destruct (sync_then_ticket (name ++ "_github") mail service "GitHub OAuth failed" w
              Hallowed Hfree) as (u & Hu & Hpass & Hrun).
  exists u. split; [exact Hu|]. split; [exact Hpass|].
  unfold do_github. rewrite Htoken, (assoc_truthy _ _ _ Haccess).
  unfold bind at 1, lift at 1, Py.contains. rewrite Haccess.
  unfold bind at 1, lift at 1, Py.getitem. rewrite Haccess.
  unfold bind at 1, lift at 1, Py.as_str. rewrite Hprofile.
  unfold bind at 1, lift at 1. rewrite Hname.
  unfold bind at 1, lift at 1.
  unfold bind at 1, lift at 1. rewrite Hmail.
  exact Hrun.
Qed.

(** X23: QQ, when everything answers: a token answer that is plain text, an
    openid answer wrapped in [callback( ... );] whose inside decodes to a
    document with a string [openid], a user document with a string
    [nickname] whose initials are not empty, a service that is allowed, and
    the name free or stored with the shared password.  The account is signed
    in and owns the session, one ticket, not primary, is stored for it and
    the service, and the client is redirected to the service with its
    token. *)
Theorem do_qq_success (code : option string) (host service : string) (w : World)
    (result data openid nickname : string) (me info : list (string * pyval)) :
  http_post "https://graph.qq.com/oauth2.0/token" (qq_token_data settings code host service)
    = VStr result ->
  result <> "" ->
  http_get ("https://graph.qq.com/oauth2.0/me?access_token=" ++ qq_access_token result)
    = VStr data ->
  PyStr.startswith data "callback" = true ->
  json_loads (PyStr.slice 10 3 data) = Some (VDict me) ->
  Py.assoc "openid" me = Some (VStr openid) ->
  http_get ("https://graph.qq.com/user/get_user_info?access_token=" ++ qq_access_token result
            ++ "&oauth_consumer_key=" ++ getattr_default settings "MAMA_CAS_OAUTH_QQ_APP_ID" ""
            ++ "&openid=" ++ openid) = VDict info ->
  Py.assoc "nickname" info = Some (VStr nickname) ->
  get_initial nickname <> "" ->
  is_allowed service = true ->
  (forall u, User_get (get_initial nickname ++ "_qq") (users w) = Some u ->
             password u = secret_key) ->
  exists u,
    username u = get_initial nickname ++ "_qq" /\ password u = secret_key /\
    signed_in_with_ticket new_ticket service u w
      (do_qq settings new_ticket is_allowed urlopen urlopen_post json_loads get_initial
             code host service w).
Proof.
  intros Htoken Hresult Hdata Hcallback Hjson Hopenid Hinfo Hnick Hname Hallowed Hfree.
  destruct (sync_then_ticket (get_initial nickname ++ "_qq")
              (VStr ((get_initial nickname ++ "_qq")
                     ++ getattr_default settings "MAMA_CAS_OAUTH_EMAIL" ""))
              service "QQ登录失败!" w Hallowed Hfree) as (u & Hu & Hpass & Hrun).
  exists u. split; [exact Hu|]. split; [exact Hpass|].
  unfold do_qq. rewrite Htoken. unfold Py.truthy. rewrite (nonempty_true _ Hresult).
  unfold bind at 1, lift at 1, Py.str_method. rewrite Hdata.
  unfold bind at 1, lift at 1. rewrite Hcallback, Hjson.
  unfold bind at 1, lift at 1.
  unfold bind at 1, lift at 1, Py.getitem. rewrite Hopenid.
  unfold bind at 1, lift at 1, Py.as_str. rewrite Hinfo.
  unfold bind at 1, lift at 1. rewrite Hnick.
  unfold bind at 1, lift at 1. rewrite (nonempty_true _ Hname).
  exact Hrun.
Qed.

End HandlerProps.

Section HandlerEdges.

Variable settings : string -> option string.
Variable new_ticket : list ServiceTicket -> string.
Variable is_allowed : string -> bool.
Variable urlopen : string -> option string.
Variable urlopen_post : string -> list (string * pyval) -> option string.
Variable json_loads : string -> option pyval.
Variable get_initial : string -> string.

Lemma substring_none (n : nat) (s : string) : String.substring n 0 s = "".
Proof.
  revert n. induction s as [|c s IH]; intros [|n]; simpl; auto.
Qed.

(** X21: [data[10:-3]] as [do_qq] applies it to the openid answer: ten characters
    are dropped in front and three behind, which unwraps
    [callback( ... );] and its line end; of an answer shorter than thirteen
    characters nothing is left to decode. *)
Theorem qq_callback_slice (data : string) :
  (forall front body back,
     String.length front = 10 -> String.length back = 3 ->
     data = front ++ body ++ back -> PyStr.slice 10 3 data = body) /\
  (forall body, data = "callback( " ++ body ++ ");" ++ PyStr.nl ->
                PyStr.startswith data "callback" = true /\ PyStr.slice 10 3 data = body) /\
  (String.length data <= 13 -> PyStr.slice 10 3 data = "").
Proof.
  assert (Hslice : forall front body back,
            String.length front = 10 -> String.length back = 3 ->
            PyStr.slice 10 3 (front ++ body ++ back) = body).
  { intros front body back Hf Hb. rewrite <- Hf, <- Hb. apply PyStrFacts.slice_app. }
  repeat split.
  - intros front body back Hf Hb ->. now apply Hslice.
  - subst data. reflexivity.
  - subst data. now apply (Hslice "callback( " body (");" ++ PyStr.nl)).
  - intros Hlen. unfold PyStr.slice.
    replace (String.length data - 3 - 10) with 0 by lia. apply substring_none.
Qed.

(** X24: WeChat's handler before and at its first request: without the
    MAMA_CAS_OAUTH_WECHAT_APP_SECRET setting it raises AttributeError, with
    it but without a [code] parameter it raises TypeError, and with both it
    answers with its failure text when the request fails on the network;
    nothing is changed in any of the three. *)
Theorem do_wechat_edges (host service : string) (w : World) :
  let wechat := do_wechat settings new_ticket is_allowed urlopen json_loads get_initial in
  (settings "MAMA_CAS_OAUTH_WECHAT_APP_SECRET" = None ->
   forall code, wechat code host service w = (Raise AttributeError, w)) /\
  (settings "MAMA_CAS_OAUTH_WECHAT_APP_SECRET" <> None ->
   wechat None host service w = (Raise TypeError, w)) /\
  (settings "MAMA_CAS_OAUTH_WECHAT_APP_SECRET" <> None ->
   (forall url, urlopen url = None) ->
   forall code, wechat (Some code) host service w =
                  (Ok (HttpResponse "WeChat OAuth failed" "text/plain"), w)).
Proof.
  unfold do_wechat, getattr, __http_get.
  destruct (settings "MAMA_CAS_OAUTH_WECHAT_APP_SECRET") as [secret|]; repeat split;
    try discriminate; try (intros H; now elim H); try reflexivity.
  intros _ Hdown code. unfold bind, lift. simpl. rewrite Hdown. reflexivity.
Qed.

(** X25: A token answer that is not JSON is kept as text by [__http_post]; GitHub's
    and Weibo's handlers then test [access_token] as a substring of it: they
    answer with the failure text when it does not occur, and raise TypeError
    when it does, for they index the text by that key. *)
Theorem token_answer_not_json (code : option string) (host service body : string)
    (w : World) :
  json_loads body = None ->
  (urlopen_post "https://github.com/login/oauth/access_token"
                (github_token_data settings code) = Some body ->
   do_github settings new_ticket is_allowed urlopen urlopen_post json_loads code service w =
     (if PyStr.contains "access_token" body then Raise TypeError
      else Ok (HttpResponse "GitHub OAuth failed" "text/plain"), w)) /\
  (urlopen_post "https://api.weibo.com/oauth2/access_token"
                (weibo_token_data settings code host service) = Some body ->
   do_weibo settings new_ticket is_allowed urlopen urlopen_post json_loads code host service w =
     (if PyStr.contains "access_token" body then Raise TypeError
      else Ok (HttpResponse "Weibo OAuth failed" "text/plain"), w)).
Proof.
  intros Hjson.
  assert (Hempty : PyStr.nonempty body = false -> PyStr.contains "access_token" body = false).
  { intros H. apply nonempty_false in H. subst body. reflexivity. }
  split; intros Hpost; unfold do_github, do_weibo, __http_post; rewrite Hpost, Hjson;
    unfold Py.truthy; destruct (PyStr.nonempty body) eqn:Hbody;
    try (rewrite (Hempty eq_refl); reflexivity);
    unfold bind, lift, Py.contains; destruct (PyStr.contains "access_token" body);
    reflexivity.
Qed.

End HandlerEdges.

(** ** Concrete runs for the further properties *)

Section FurtherRuns.

Import Deployment.

Local Abbreviation callback urlopen :=
  (OAuthView_get settings new_ticket is_allowed urlopen urlopen_post json_loads get_initial).
Local Abbreviation get := (LoginView_get settings to_bool new_ticket is_allowed).

Lemma OAuthView_get_redirect_witness :
  let request := oauth_request [("v", "github,https://app.example/cb"); ("code", "abc")] in
  exists provider u,
    QueryDict_get (GET request) "v" = Some (provider ++ "," ++ app) /\
    In provider providers /\
    [("ticket", "ST-")] = [("ticket", new_ticket (tickets anonymous))] /\
    tickets (snd (callback urlopen_up request anonymous)) =
      transparent_ticket new_ticket app u anonymous :: tickets anonymous /\
    auth_user (session (snd (callback urlopen_up request anonymous))) = Some u /\
    In u (users (snd (callback urlopen_up request anonymous))) /\
    PyStr.endswith (username u) ("_" ++ provider) = true /\
    password u = getattr_default settings "SECRET_KEY" "".
Proof.
  intros request.
  apply (OAuthView_get_redirect settings new_ticket is_allowed urlopen_up urlopen_post json_loads
           get_initial request anonymous app [("ticket", "ST-")]).
  reflexivity.
Defined.

Lemma OAuthView_get_accounts_witness :
  let request := oauth_request [("v", "github,https://app.example/cb"); ("code", "abc")] in
  NoDup (map username (users anonymous)) /\
  NoDup (map username (users (snd (callback urlopen_up request anonymous)))).
Proof.
  intros request.
  assert (H : NoDup (map username (users anonymous))).
  { simpl. constructor; [intros [] | constructor]. }
  split; [exact H|].
  apply (proj2 (OAuthView_get_accounts settings new_ticket is_allowed urlopen_up urlopen_post
                  json_loads get_initial request anonymous) H).
Defined.

Lemma OAuthView_get_dispatch_witness :
  let request := oauth_request [("v", "qq,https://app.example/cb"); ("code", "abc")] in
  callback urlopen_qq request =
    do_qq settings new_ticket is_allowed urlopen_qq urlopen_post json_loads get_initial
          (Some "abc") "cas.example.org" app.
Proof.
  intros request.
  destruct (OAuthView_get_dispatch settings new_ticket is_allowed urlopen_qq urlopen_post
              json_loads get_initial request app eq_refl) as (_ & Hhost & _).
  destruct (Hhost "cas.example.org" eq_refl) as (Hqq & _).
  apply Hqq. reflexivity.
Defined.

Lemma OAuthView_get_fallback_witness :
  let request := oauth_request [("v", "github,https://app.example/cb?a=1,2"); ("code", "abc")] in
  callback urlopen_up request anonymous =
    (Ok (HttpResponse "请从web应用（例如https://bugs.isoft-linux.org/）登录入口进行CAS"
                      "text/plain"), anonymous).
Proof.
  intros request.
  apply (OAuthView_get_fallback settings new_ticket is_allowed urlopen_up urlopen_post json_loads
           get_initial request anonymous).
  simpl. left. discriminate.
Defined.

Lemma LoginView_get_gateway_irrelevant_witness :
  get (login_request [("service", app); ("gateway", "true")]) signed_in =
  get (login_request [("service", app)]) signed_in.
Proof.
  apply (LoginView_get_gateway_irrelevant settings to_bool new_ticket is_allowed
           (login_request [("service", app); ("gateway", "true")])
           (login_request [("service", app)]) signed_in);
    [reflexivity | reflexivity | reflexivity | left; discriminate].
Defined.

Lemma LoginView_setup_path_witness :
  lv_path (LoginView_setup settings (mkRequest "https" "cas.example.org" "/cas/login" [])
                           "cas.example.org") = "/cas/" /\
  lv_path (LoginView_setup settings (mkRequest "https" "cas.example.org" "/cas/" [])
                           "cas.example.org") = "/cas/".
Proof.
  split.
  - apply (proj1 (LoginView_setup_path settings
                    (mkRequest "https" "cas.example.org" "/cas/login" [])
                    "cas.example.org") "/cas/").
    reflexivity.
  - apply (proj1 (proj2 (LoginView_setup_path settings
                           (mkRequest "https" "cas.example.org" "/cas/" [])
                           "cas.example.org"))).
    reflexivity.
Defined.

Lemma LoginView_warn_after_form_valid_witness :
  let w1 := snd (LoginView_form_valid new_ticket is_allowed (login_request []) (mkForm alice true)
                                      anonymous) in
  get (login_request [("service", app)]) w1 =
    (Ok (redirect "cas_warn" [("service", app); ("ticket", "ST-")]),
     set_tickets [mkST "ST-" app alice false false] w1).
Proof.
  intros w1.
  apply (LoginView_warn_after_form_valid settings to_bool new_ticket is_allowed
           (login_request [])
           (login_request [("service", app)]) (mkForm alice true) anonymous
           "cas.example.org");
    [reflexivity | reflexivity | reflexivity | discriminate | reflexivity].
Defined.

Lemma LoginView_get_context_data_raises_witness :
  LoginView_get_context_data (fun _ => None) LoginView_init = Raise AttributeError /\
  exists data, LoginView_get_context_data settings LoginView_init = Ok data /\
               map fst data = ["oauth_weibo_meta_content"; "oauth_qq_meta_content";
                               "oauth_github_url"; "oauth_qq_url"; "oauth_weibo_url";
                               "oauth_wechat_url"].
Proof.
  split.
  - apply (proj1 (proj1 (LoginView_get_context_data_raises (fun _ => None) LoginView_init))).
    reflexivity.
  - apply (proj1 (proj2 (LoginView_get_context_data_raises settings LoginView_init))).
    discriminate.
Defined.

Lemma LoginView_form_valid_no_service_witness :
  let out := LoginView_form_valid new_ticket is_allowed (login_request [("service", "")])
                                  (mkForm alice false) anonymous in
  fst out = Ok (redirect "cas_login" []) /\ tickets (snd out) = tickets anonymous.
Proof.
  intros out.
  apply (LoginView_form_valid_no_service new_ticket is_allowed (login_request [("service", "")])
           (mkForm alice false) anonymous).
  right. reflexivity.
Defined.

End FurtherRuns.

Section HandlerRuns.

Import Deployment.

Local Abbreviation proxy_validate :=
  (ProxyValidateView_get_context_data to_bool validate_service_ticket validate_proxy_ticket
                                      get_attributes TICKET_PREFIX).

Lemma ProxyValidateView_service_ticket_witness :
  let request := validate_request [("service", app); ("ticket", "ST-")] in
  let w := set_tickets [mkST "ST-" app alice false false] anonymous in
  let st := mkST "ST-" app alice false true in
  proxy_validate request w =
    (mkContext (Some (ST st)) None (Some None) None
               (Some [("email", VStr "alice@example.org")]),
     set_tickets [st] anonymous).
Proof.
  intros request w st.
  pose proof (ProxyValidateView_service_ticket to_bool validate_service_ticket
                validate_proxy_ticket get_attributes TICKET_PREFIX request "ST-" w
                eq_refl ltac:(discriminate) eq_refl) as H.
  exact (proj2 H).
Defined.

Lemma ProxyValidateView_renew_ignored_witness :
  proxy_validate (validate_request [("service", app); ("ticket", "PT-1"); ("renew", "true")])
                 anonymous =
  proxy_validate (validate_request [("service", app); ("ticket", "PT-1")]) anonymous.
Proof.
  apply (ProxyValidateView_renew_ignored to_bool validate_service_ticket
           validate_proxy_ticket get_attributes TICKET_PREFIX
           (validate_request [("service", app); ("ticket", "PT-1"); ("renew", "true")])
           (validate_request [("service", app); ("ticket", "PT-1")]) anonymous);
    [reflexivity | reflexivity | reflexivity | right; reflexivity].
Defined.

Lemma qq_access_token_first_witness :
  qq_access_token "access_token=tok" = "tok" /\
  qq_access_token "access_token=tok&expires_in=7776000" = "tok".
Proof.
  apply (qq_access_token_first "tok" "expires_in=7776000"); reflexivity.
Defined.

Lemma qq_access_token_index_witness :
  2 <= List.length (PyStr.split "=" "access_token=") /\
  qq_access_token "error=100020&error_description=expired" = "".
Proof.
  split.
  - apply (proj1 (qq_access_token_index "") "access_token="). reflexivity.
  - apply (proj2 (qq_access_token_index "error=100020&error_description=expired")).
    vm_compute. repeat (constructor; try reflexivity).
Defined.

Lemma qq_callback_slice_witness :
  PyStr.slice 10 3 ("callback( qq-me );" ++ PyStr.nl) = "qq-me " /\
  PyStr.slice 10 3 "callback" = "".
Proof.
  split.
  - apply (proj1 (qq_callback_slice ("callback( qq-me );" ++ PyStr.nl))
                 "callback( " "qq-me " (");" ++ PyStr.nl)); reflexivity.
  - apply (proj2 (proj2 (qq_callback_slice "callback"))). simpl. lia.
Defined.

Lemma do_github_success_witness :
  exists u,
    username u = "octocat" ++ "_github" /\
    password u = getattr_default settings "SECRET_KEY" "" /\
    signed_in_with_ticket new_ticket app u anonymous
      (do_github settings new_ticket is_allowed urlopen_up urlopen_post json_loads
                 (Some "abc") app anonymous).
Proof.
  apply (do_github_success settings new_ticket is_allowed urlopen_up urlopen_post json_loads
           (Some "abc") app anonymous
           [("access_token", VStr "tok"); ("token_type", VStr "bearer")]
           [("login", VStr "octocat"); ("email", VStr "octocat@example.org")]
           "tok" "octocat" (VStr "octocat@example.org"));
    try reflexivity.
  intros u H. discriminate H.
Defined.

Lemma do_qq_success_witness :
  exists u,
    username u = get_initial "zs" ++ "_qq" /\
    password u = getattr_default settings "SECRET_KEY" "" /\
    signed_in_with_ticket new_ticket app u anonymous
      (do_qq settings new_ticket is_allowed urlopen_qq urlopen_post json_loads_qq
             get_initial (Some "abc") "cas.example.org" app anonymous).
Proof.
  apply (do_qq_success settings new_ticket is_allowed urlopen_qq urlopen_post json_loads_qq
           get_initial (Some "abc") "cas.example.org" app anonymous
           "access_token=tok&expires_in=7776000" ("callback( qq-me );" ++ PyStr.nl)
           "OPENID" "zs"
           [("client_id", VStr "qq-id"); ("openid", VStr "OPENID")]
           [("ret", VInt 0); ("nickname", VStr "zs")]);
    try reflexivity; discriminate.
Defined.

Lemma do_wechat_edges_witness :
  do_wechat (fun _ => None) new_ticket is_allowed urlopen_down json_loads get_initial (Some "abc")
            "cas.example.org" app anonymous = (Raise AttributeError, anonymous) /\
  do_wechat settings new_ticket is_allowed urlopen_down json_loads get_initial None
            "cas.example.org" app anonymous = (Raise TypeError, anonymous) /\
  do_wechat settings new_ticket is_allowed urlopen_down json_loads get_initial (Some "abc")
            "cas.example.org" app anonymous =
    (Ok (HttpResponse "WeChat OAuth failed" "text/plain"), anonymous).
Proof.
  split; [|split].
  - apply (proj1 (do_wechat_edges (fun _ => None) new_ticket is_allowed urlopen_down json_loads
                    get_initial "cas.example.org" app anonymous)). reflexivity.
  - apply (proj1 (proj2 (do_wechat_edges settings new_ticket is_allowed urlopen_down json_loads
                           get_initial "cas.example.org" app anonymous))). discriminate.
  - apply (proj2 (proj2 (do_wechat_edges settings new_ticket is_allowed urlopen_down json_loads
                           get_initial "cas.example.org" app anonymous)));
      [discriminate | reflexivity].
Defined.

Lemma token_answer_not_json_witness :
  do_github settings new_ticket is_allowed urlopen_up urlopen_post_form json_loads (Some "abc") app
            anonymous = (Raise TypeError, anonymous).
Proof.
  apply (proj1 (token_answer_not_json settings new_ticket is_allowed urlopen_up urlopen_post_form
                  json_loads (Some "abc") "cas.example.org" app
                  "access_token=tok&scope=&token_type=bearer" anonymous eq_refl)).
  reflexivity.
Defined.

Lemma token_exchange_down_witness :
  do_github settings new_ticket is_allowed urlopen_up urlopen_post_down json_loads (Some "abc") app
            anonymous =
    (Ok (HttpResponse "GitHub OAuth failed" "text/plain"), anonymous) /\
  do_qq settings new_ticket is_allowed urlopen_up urlopen_post_down json_loads get_initial (Some "abc")
        "cas.example.org" app anonymous =
    (Ok (HttpResponse "QQ登录失败!" "text/plain"), anonymous) /\
  do_weibo settings new_ticket is_allowed urlopen_up urlopen_post_down json_loads (Some "abc")
           "cas.example.org" app anonymous =
    (Ok (HttpResponse "Weibo OAuth failed" "text/plain"), anonymous).
Proof.
  apply (token_exchange_down settings new_ticket is_allowed urlopen_up urlopen_post_down json_loads
           get_initial (Some "abc") "cas.example.org" app anonymous).
  reflexivity.
Defined.

End HandlerRuns.
